(** * Online serving-vector engine of [hsfs.core.training_dataset_engine]

    A shallow embedding of [TrainingDatasetEngine.get_serving_vector],
    [init_prepared_statement], [deserialize_complex_features] and
    [_apply_transformation], together with the properties of the
    serving path that the specification states about them.

    Python dictionaries are insertion-ordered association lists, Python
    sets are [gset]s, exceptions are an error monad, and the statements
    sent to the online store are recorded in a trace. *)

From Stdlib Require Import ZArith Ascii String.
From stdpp Require Import base option list sorting gmap strings.

Local Open Scope Z_scope.

(** ** Python values that travel through the serving path *)

(** Primary-key values of an entry, raw column values of a result row and
    the output of decoders and transformation functions. *)
#[warnings="-register-all"]
Inductive pyval : Type :=
  | PNone
  | PInt (z : Z)
  | PStr (s : string)
  | PBytes (b : string)
  | PList (xs : list pyval)
  | PTuple (xs : list pyval).

(** [hasattr(v, "__iter__")]: strings, bytes, lists and tuples are
    iterable, numbers and [None] are not. *)
Definition has_iter (v : pyval) : bool :=
  match v with
  | PNone | PInt _ => false
  | PStr _ | PBytes _ | PList _ | PTuple _ => true
  end.

(** [isinstance(v, list)]. *)
Definition is_list (v : pyval) : bool :=
  match v with
  | PList _ => true
  | _ => false
  end.

(** ** Exceptions *)

(** The four [ValueError]s of [get_serving_vector], told apart by their
    message. *)
Inductive value_error : Type :=
  | EntryExpectedList      (* "Entry is expected to be list of primary key values. ..." *)
  | BatchSizeDiffers       (* "Size of provided batch of primary keys doesn't correspond ..." *)
  | EntryExpectedSingle    (* "Entry is expected to be single value per primary key. ..." *)
  | KeyMapMismatch.        (* "Provided primary key map doesn't correspond to serving_keys" *)

Inductive exn : Type :=
  | ValueError (m : value_error)
  | IndexError
  | TypeError
  | KeyError (k : string)
  | AttributeError
  | External (what : string).

(** The names the specification gives to the [ValueError]s. *)
Definition ServingModeMismatch (e : exn) : Prop :=
  e = ValueError EntryExpectedList \/ e = ValueError BatchSizeDiffers \/
  e = ValueError EntryExpectedSingle.

Definition KeyMismatch : exn := ValueError KeyMapMismatch.

Inductive Res (A : Type) : Type :=
  | Ok (a : A)
  | Raise (e : exn).
Arguments Ok {A} a.
Arguments Raise {A} e.

#[global] Instance Res_ret : MRet Res := fun _ a => Ok a.
#[global] Instance Res_bind : MBind Res := fun _ _ f m =>
  match m with
  | Ok a => f a
  | Raise e => Raise e
  end.
#[global] Instance Res_fmap : FMap Res := fun _ _ f m =>
  match m with
  | Ok a => Ok (f a)
  | Raise e => Raise e
  end.

Definition is_ok {A} (r : Res A) : bool :=
  match r with
  | Ok _ => true
  | Raise _ => false
  end.

(** [len(v)]; numbers and [None] have no length. *)
Definition py_len (v : pyval) : Res nat :=
  match v with
  | PStr s | PBytes s => Ok (String.length s)
  | PList xs | PTuple xs => Ok (length xs)
  | PNone | PInt _ => Raise TypeError
  end.

(** ** Dictionaries

    A Python [dict] keeps its keys in insertion order; assigning to a key
    that is present keeps the key's position. *)
Abbreviation dict K V := (list (K * V)) (only parsing).

Section Dict.
Context {K V : Type} `{EqDecision K}.

Fixpoint dict_get (k : K) (d : dict K V) : option V :=
  match d with
  | [] => None
  | (k', v) :: d' => if decide (k = k') then Some v else dict_get k d'
  end.

Fixpoint dict_set (k : K) (v : V) (d : dict K V) : dict K V :=
  match d with
  | [] => [(k, v)]
  | (k', v') :: d' =>
      if decide (k = k') then (k', v) :: d' else (k', v') :: dict_set k v d'
  end.

Definition dict_keys (d : dict K V) : list K := d.*1.
Definition dict_values (d : dict K V) : list V := d.*2.

(** [dict(items)]. *)
Definition dict_of_items (items : list (K * V)) : dict K V :=
  foldl (fun d kv => dict_set kv.1 kv.2 d) [] items.

(** The keys of a dictionary are pairwise distinct. *)
Definition dict_wf (d : dict K V) : Prop := NoDup (dict_keys d).
End Dict.

(** ** Template rewriter *)

Definition newline : ascii := "010"%char.
Definition qmark : ascii := "?"%char.
Definition backslash : ascii := "\"%char.

(** [s.replace("\n", " ")]. *)
Fixpoint replace_newlines (s : string) : string :=
  match s with
  | EmptyString => EmptyString
  | String c s' =>
      String (if Ascii.eqb c newline then " "%char else c) (replace_newlines s')
  end.

(** The match of the pattern [^(.*?)\?] on [s], if any: group 1 (the
    shortest prefix followed by a question mark) and the text after the
    question mark.  The dot does not match a newline, and without the
    MULTILINE flag the anchor only matches at the start of the string, so
    there is at most one match. *)
Fixpoint match_first_placeholder (s : string) : option (string * string) :=
  match s with
  | EmptyString => None
  | String c s' =>
      if Ascii.eqb c qmark then Some (EmptyString, s')
      else if Ascii.eqb c newline then None
      else
        match match_first_placeholder s' with
        | Some (g, rest) => Some (String c g, rest)
        | None => None
        end
  end.

(** [re.sub(r"^(.*?)\?", r"\1:" + pk_name, query_online)], for a
    [pk_name] without backslash (a backslash in the replacement template
    would start an escape). *)
Definition re_sub_placeholder (pk_name query_online : string) : string :=
  match match_first_placeholder query_online with
  | Some (g, rest) => g +:+ ":" +:+ pk_name +:+ rest
  | None => query_online
  end.

(** The body of [for pk_name in pk_names] in [init_prepared_statement]:
    the loop state is [serving_vector_keys] and [query_online]. *)
Definition rewrite_step (st : gset string * string) (pk_name : string)
  : gset string * string :=
  ({[pk_name]} ∪ st.1, re_sub_placeholder pk_name st.2).

Definition rewrite_loop (pk_names : list string) (st : gset string * string)
  : gset string * string :=
  foldl rewrite_step st pk_names.

(** The query text the loop leaves behind. *)
Definition rewrite_query (template : string) (pk_names : list string) : string :=
  (rewrite_loop pk_names (∅, replace_newlines template)).2.

(** ** Data of the serving path *)

(** The client objects of the online store and of the SQL layer. *)
Class Platform : Type := {
  Connector : Type;   (* the online storage connector *)
  Engine : Type;      (* a pooled engine of the online store *)
  Stmt : Type;        (* a [sql.text] construct *)
  Schema : Type       (* an avro [DatumReader] *)
}.

Record PreparedStatementParameter : Type := {
  psp_name : string;
  psp_index : Z
}.

Record ServingPreparedStatement : Type := {
  query_online : string;
  prepared_statement_parameters : list PreparedStatementParameter;
  prepared_statement_index : Z
}.

Record TransformationFunction : Type := {
  transformation_fn : pyval -> pyval
}.

(** [row.items()] of a fetched row: column name and raw value. *)
Definition Row : Type := list (string * pyval).

(** What [get_serving_vector] returns: one vector, or a batch of them. *)
Inductive Served : Type :=
  | Vector (serving_vector : list pyval)
  | BatchVectors (vectors : list (list pyval)).

(** [sorted(parameters, key=lambda psp: psp.index)]: a stable sort. *)
Fixpoint insert_by_index (p : PreparedStatementParameter)
    (l : list PreparedStatementParameter) : list PreparedStatementParameter :=
  match l with
  | [] => [p]
  | q :: l' =>
      if psp_index p <=? psp_index q then p :: l else q :: insert_by_index p l'
  end.

Definition sorted_by_index (l : list PreparedStatementParameter)
  : list PreparedStatementParameter :=
  foldr insert_by_index [] l.

(** [s.upper()] and [s.startswith(p)] on ASCII text. *)
Definition upper_ascii (c : ascii) : ascii :=
  let n := nat_of_ascii c in
  if ((97 <=? n) && (n <=? 122))%nat then ascii_of_nat (n - 32) else c.

Fixpoint upper (s : string) : string :=
  match s with
  | EmptyString => EmptyString
  | String c s' => String (upper_ascii c) (upper s')
  end.

Definition startswith (s p : string) : bool := String.prefix p s.

Section Engine.
Context {PF : Platform}.

Record TrainingDatasetFeature : Type := {
  name : string;
  type : option string;
  avro_reader : Schema   (* reader of the feature's avro schema in its feature group *)
}.

(** The training dataset object: its schema and the serving state that
    [init_prepared_statement] keeps on it. *)
Record TrainingDataset : Type := {
  schema : list TrainingDatasetFeature;
  transformation_functions : dict string TransformationFunction;
  prepared_statement_engine : option Engine;
  prepared_statements : option (dict Z Stmt);
  serving_keys : option (gset string);
  serving_batch_size : option Z
}.

(** The collaborators of the engine: metadata service, online store,
    SQL layer and avro decoder, and the constant
    [Feature.COMPLEX_TYPES]. *)
Class Services : Type := {
  COMPLEX_TYPES : list string;
  get_online_connector : Res Connector;
  create_mysql_engine : Connector -> bool -> Res Engine;
  get_serving_prepared_statement :
    TrainingDataset -> bool -> Res (list ServingPreparedStatement);
  get_td_transformation_fn :
    TrainingDataset -> Res (dict string TransformationFunction);
  sql_text : string -> Stmt;
  bindparams : Stmt -> list string -> Res Stmt;
  schema_read : Schema -> pyval -> Res pyval;
  execute_fetchall : Engine -> Stmt -> dict string pyval -> Res (list Row)
}.

Context {SV : Services}.

(** *** Row decoder *)

(** [TrainingDatasetFeature.is_complex]; [str(None)] is ["None"]. *)
Definition is_complex (f : TrainingDatasetFeature) : bool :=
  let t := upper (default "None" (type f)) in
  existsb (startswith t) COMPLEX_TYPES.

Definition get_complex_feature_schemas (training_dataset : TrainingDataset)
  : dict string Schema :=
  dict_of_items
    (map (fun f => (name f, avro_reader f))
         (List.filter is_complex (schema training_dataset))).

(** [deserialize_complex_features]: the loop over
    [feature_schemas.items()]; [row_dict[feature_name]] raises
    [KeyError] when the row lacks the column. *)
Fixpoint deserialize_complex_features (feature_schemas : dict string Schema)
    (row_dict : dict string pyval) : Res (dict string pyval) :=
  match feature_schemas with
  | [] => Ok row_dict
  | (feature_name, schema) :: feature_schemas' =>
      match dict_get feature_name row_dict with
      | None => Raise (KeyError feature_name)
      | Some raw =>
          v ← schema_read schema raw;
          deserialize_complex_features feature_schemas'
            (dict_set feature_name v row_dict)
      end
  end.

(** *** Transformation applier *)

(** [_apply_transformation]: [for feature_name in transformation_fns]
    with [transformation_fns[feature_name]] read back, which is the
    loop over the items of the dictionary. *)
Fixpoint _apply_transformation
    (transformation_fns : dict string TransformationFunction)
    (row_dict : dict string pyval) : dict string pyval :=
  match transformation_fns with
  | [] => row_dict
  | (feature_name, tf) :: transformation_fns' =>
      match dict_get feature_name row_dict with
      | Some v =>
          _apply_transformation transformation_fns'
            (dict_set feature_name (transformation_fn tf v) row_dict)
      | None => _apply_transformation transformation_fns' row_dict
      end
  end.

(** *** Statement cache and initialisation *)

Definition reset_serving (training_dataset : TrainingDataset) : TrainingDataset :=
  {| schema := schema training_dataset;
     transformation_functions := transformation_functions training_dataset;
     prepared_statement_engine := None;
     prepared_statements := None;
     serving_keys := None;
     serving_batch_size := None |}.

Definition set_serving_batch_size (batch_size : Z)
    (training_dataset : TrainingDataset) : TrainingDataset :=
  {| schema := schema training_dataset;
     transformation_functions := transformation_functions training_dataset;
     prepared_statement_engine := prepared_statement_engine training_dataset;
     prepared_statements := prepared_statements training_dataset;
     serving_keys := serving_keys training_dataset;
     serving_batch_size := Some batch_size |}.

(** The three assignments that close [init_prepared_statement], after
    the one to [transformation_functions]. *)
Definition publish_serving (fns : dict string TransformationFunction)
    (mysql_engine : Engine) (prepared_statements_dict : dict Z Stmt)
    (serving_vector_keys : gset string)
    (training_dataset : TrainingDataset) : TrainingDataset :=
  {| schema := schema training_dataset;
     transformation_functions := fns;
     prepared_statement_engine := Some mysql_engine;
     prepared_statements := Some prepared_statements_dict;
     serving_keys := Some serving_vector_keys;
     serving_batch_size := serving_batch_size training_dataset |}.

Definition pk_names_of (prepared_statement : ServingPreparedStatement)
  : list string :=
  map psp_name
      (sorted_by_index (prepared_statement_parameters prepared_statement)).

(** [for prepared_statement in prepared_statements] of
    [init_prepared_statement]; the loop state is
    [prepared_statements_dict] and [serving_vector_keys]. *)
Fixpoint compile_statements (batch : bool)
    (prepared_statements : list ServingPreparedStatement)
    (prepared_statements_dict : dict Z Stmt)
    (serving_vector_keys : gset string) : Res (dict Z Stmt * gset string) :=
  match prepared_statements with
  | [] => Ok (prepared_statements_dict, serving_vector_keys)
  | prepared_statement :: rest =>
      let pk_names := pk_names_of prepared_statement in
      let '(keys, text) :=
        rewrite_loop pk_names
          (serving_vector_keys,
           replace_newlines (query_online prepared_statement)) in
      stmt ← (if batch then bindparams (sql_text text) pk_names
              else Ok (sql_text text));
      compile_statements batch rest
        (dict_set (prepared_statement_index prepared_statement) stmt
           prepared_statements_dict)
        keys
  end.

(** [init_prepared_statement]: the training dataset it leaves behind
    and whether it raised. *)
Definition init_prepared_statement (training_dataset : TrainingDataset)
    (batch_size : option Z) (external : bool) : TrainingDataset * Res () :=
  let td := reset_serving training_dataset in
  let batch :=
    match batch_size with
    | Some n => bool_decide (1 < n)
    | None => false
    end in
  let td :=
    match batch_size with
    | Some n => if batch then set_serving_batch_size n td else td
    | None => td
    end in
  match get_online_connector with
  | Raise e => (td, Raise e)
  | Ok online_conn =>
  match create_mysql_engine online_conn external with
  | Raise e => (td, Raise e)
  | Ok mysql_engine =>
  match get_serving_prepared_statement td batch with
  | Raise e => (td, Raise e)
  | Ok statements =>
  match compile_statements batch statements [] ∅ with
  | Raise e => (td, Raise e)
  | Ok (prepared_statements_dict, serving_vector_keys) =>
  match get_td_transformation_fn td with
  | Raise e => (td, Raise e)
  | Ok fns =>
      (publish_serving fns mysql_engine prepared_statements_dict
         serving_vector_keys td, Ok ())
  end end end end end.

(** *** Vector assembler *)

(** [list(entry.values())[0]]. *)
Definition first_value (entry : dict string pyval) : Res pyval :=
  match dict_values entry with
  | [] => Raise IndexError
  | v :: _ => Ok v
  end.

(** The block under [if training_dataset.prepared_statements is None];
    [isinstance(list(v), list)] holds of every iterable [v]. *)
Definition auto_init (training_dataset : TrainingDataset)
    (entry : dict string pyval) (external : bool) : TrainingDataset * Res () :=
  match prepared_statements training_dataset with
  | Some _ => (training_dataset, Ok ())
  | None =>
      match first_value entry with
      | Raise e => (training_dataset, Raise e)
      | Ok v =>
          if has_iter v then
            match py_len v with
            | Raise e => (training_dataset, Raise e)
            | Ok n =>
                init_prepared_statement training_dataset
                  (Some (Z.of_nat n)) external
            end
          else init_prepared_statement training_dataset None external
      end
  end.

(** [serving_batch_size is not None and serving_batch_size > 1]. *)
Definition batch_mode (training_dataset : TrainingDataset) : bool :=
  match serving_batch_size training_dataset with
  | Some n => bool_decide (1 < n)
  | None => false
  end.

(** [batch_sizes != training_dataset.serving_batch_size]: a list on the
    left, an integer on the right; Python never finds them equal. *)
Definition list_ne_int (batch_sizes : list nat) (n : option Z) : bool := true.

(** The shape checks on [entry]; the result is the flag [batch]. *)
Definition check_mode (training_dataset : TrainingDataset)
    (entry : dict string pyval) : Res bool :=
  if batch_mode training_dataset then
    v ← first_value entry;
    if negb (has_iter v) && negb (is_list v) then
      Raise (ValueError EntryExpectedList)
    else
      lens ← mapM py_len (dict_values entry);
      let batch_sizes := elements (list_to_set lens : gset nat) in
      if negb (bool_decide (length batch_sizes = 1%nat))
         && list_ne_int batch_sizes (serving_batch_size training_dataset)
      then Raise (ValueError BatchSizeDiffers)
      else Ok true
  else
    v ← first_value entry;
    if has_iter v && is_list v then Raise (ValueError EntryExpectedSingle)
    else Ok false.

(** [entry.keys() == training_dataset.serving_keys]. *)
Definition keys_match (training_dataset : TrainingDataset)
    (entry : dict string pyval) : bool :=
  match serving_keys training_dataset with
  | Some keys => bool_decide (list_to_set (dict_keys entry) = keys)
  | None => false
  end.

(** One turn of [for row in result_proxy] up to the transformation:
    decode, refuse a row without columns, transform.  The refusal
    evaluates [str + entry] with [entry] a dict, a [TypeError]. *)
Definition process_row (complex_features : dict string Schema)
    (fns : dict string TransformationFunction) (row : Row)
  : Res (dict string pyval) :=
  result_dict ← deserialize_complex_features complex_features (dict_of_items row);
  match result_dict with
  | [] => Raise TypeError
  | _ => Ok (_apply_transformation fns result_dict)
  end.

(** [for row in result_proxy]; the loop state is [order_in_batch],
    [result_dict] and [batch_dicts]. *)
Fixpoint rows_loop (complex_features : dict string Schema)
    (fns : dict string TransformationFunction) (batch : bool)
    (result_proxy : list Row) (order_in_batch : nat)
    (result_dict : dict string pyval) (batch_dicts : dict nat (list pyval))
  : Res (dict string pyval * dict nat (list pyval)) :=
  match result_proxy with
  | [] => Ok (result_dict, batch_dicts)
  | row :: rest =>
      result_dict ← process_row complex_features fns row;
      let batch_dicts :=
        if batch then
          match dict_get order_in_batch batch_dicts with
          | Some vector =>
              dict_set order_in_batch (vector ++ dict_values result_dict)
                batch_dicts
          | None =>
              dict_set order_in_batch (dict_values result_dict) batch_dicts
          end
        else batch_dicts in
      rows_loop complex_features fns batch rest (S order_in_batch)
        result_dict batch_dicts
  end.

(** [for prepared_statement_index in training_dataset.prepared_statements],
    with the statement read back from the same dictionary: the loop
    over its items, in the dictionary's order.  The trace lists the
    indices of the statements sent to the online store so far;
    [prepared_statement_engine.connect()] fails on [None]. *)
Fixpoint statements_loop (mysql_engine : option Engine)
    (complex_features : dict string Schema)
    (fns : dict string TransformationFunction)
    (entry : dict string pyval) (batch : bool)
    (statements : dict Z Stmt) (trace : list Z)
    (serving_vector : list pyval) (batch_dicts : dict nat (list pyval))
  : list Z * Res (list pyval * dict nat (list pyval)) :=
  match statements with
  | [] => (trace, Ok (serving_vector, batch_dicts))
  | (prepared_statement_index, prepared_statement) :: rest =>
      match mysql_engine with
      | None => (trace, Raise AttributeError)
      | Some mysql_conn =>
      let trace := trace ++ [prepared_statement_index] in
      match execute_fetchall mysql_conn prepared_statement entry with
      | Raise e => (trace, Raise e)
      | Ok result_proxy =>
          match rows_loop complex_features fns batch result_proxy 0 []
                  batch_dicts with
          | Raise e => (trace, Raise e)
          | Ok (result_dict, batch_dicts) =>
              statements_loop mysql_engine complex_features fns entry batch
                rest trace
                (if batch then serving_vector
                 else serving_vector ++ dict_values result_dict)
                batch_dicts
          end
      end
      end
  end.

(** The part of [get_serving_vector] after the checks; iterating over
    [None] is a [TypeError]. *)
Definition assemble (training_dataset : TrainingDataset)
    (entry : dict string pyval) (batch : bool) : list Z * Res Served :=
  match prepared_statements training_dataset with
  | None => ([], Raise TypeError)
  | Some statements =>
      let complex_features := get_complex_feature_schemas training_dataset in
      match statements_loop (prepared_statement_engine training_dataset)
              complex_features
              (transformation_functions training_dataset) entry batch
              statements [] [] [] with
      | (trace, Raise e) => (trace, Raise e)
      | (trace, Ok (serving_vector, batch_dicts)) =>
          (trace,
           Ok (if batch then BatchVectors (dict_values batch_dicts)
               else Vector serving_vector))
      end
  end.

(** [get_serving_vector]: the training dataset it leaves behind, the
    trace of the statements it sent to the online store and what it
    returned or raised. *)
Definition get_serving_vector (training_dataset : TrainingDataset)
    (entry : dict string pyval) (external : bool)
  : TrainingDataset * list Z * Res Served :=
  match auto_init training_dataset entry external with
  | (td, Raise e) => (td, [], Raise e)
  | (td, Ok _) =>
      match check_mode td entry with
      | Raise e => (td, [], Raise e)
      | Ok batch =>
          if negb (keys_match td entry) then (td, [], Raise KeyMismatch)
          else
            let '(trace, r) := assemble td entry batch in
            (td, trace, r)
      end
  end.
End Engine.

(** ** Reference definitions for the statements of the properties *)

Fixpoint count_char (c : ascii) (s : string) : nat :=
  match s with
  | EmptyString => 0%nat
  | String c' s' => ((if Ascii.eqb c' c then 1 else 0) + count_char c s')%nat
  end.

(** A bind name the rewriter is meant for: no question mark, no newline
    and no backslash in it. *)
Definition name_ok (pk_name : string) : bool :=
  bool_decide (count_char qmark pk_name = 0%nat)
  && bool_decide (count_char newline pk_name = 0%nat)
  && bool_decide (count_char backslash pk_name = 0%nat).

(** The query the specification asks for: the template read left to
    right, its k-th positional placeholder replaced by a colon and the
    k-th name; every other character kept. *)
Fixpoint named_query (template : string) (pk_names : list string) : string :=
  match template with
  | EmptyString => EmptyString
  | String c template' =>
      if Ascii.eqb c qmark then
        match pk_names with
        | pk_name :: pk_names' =>
            ":" +:+ pk_name +:+ named_query template' pk_names'
        | [] => String c (named_query template' [])
        end
      else String c (named_query template' pk_names)
  end.

(** What a result set contributes to a single vector according to the
    code: every row is decoded and transformed, and the values of the
    last one are taken; nothing when there is no row. *)
Definition lookup_fields {PF : Platform} {SV : Services}
    (complex_features : dict string Schema)
    (fns : dict string TransformationFunction)
    (result_proxy : list Row) : Res (list pyval) :=
  dicts ← mapM (process_row complex_features fns) result_proxy;
  Ok (default [] (dict_values <$> last dicts)).

(** The fields of every row of a result set, in return order. *)
Definition batch_fields {PF : Platform} {SV : Services}
    (complex_features : dict string Schema)
    (fns : dict string TransformationFunction)
    (result_proxy : list Row) : Res (list (list pyval)) :=
  mapM (fun row => dict_values <$> process_row complex_features fns row)
       result_proxy.

(** [batch_dicts] with the slots [o], [o+1], ... in this order. *)
Fixpoint slots_from (o : nat) (vectors : list (list pyval))
  : dict nat (list pyval) :=
  match vectors with
  | [] => []
  | v :: vectors' => (o, v) :: slots_from (S o) vectors'
  end.

(** The vectors after one more result set: slot by slot, the fields of
    its rows are appended; a slot not seen before is created. *)
Fixpoint stitch (vectors fields : list (list pyval)) : list (list pyval) :=
  match vectors, fields with
  | v :: vectors', f :: fields' => (v ++ f) :: stitch vectors' fields'
  | [], _ => fields
  | _, [] => vectors
  end.

(** The vector of batch slot [i]: the fields of row [i] of every result
    set, in the order of the result sets. *)
Definition batch_vector (tables : list (list (list pyval))) (i : nat)
  : list pyval :=
  concat (map (fun table => default [] (table !! i)) tables).

(** The statement [s] of the cache, run for [entry], returns a result
    set whose fields, read by [fields_of], are [fields]. *)
Definition answers {PF : Platform} {SV : Services} {A : Type}
    (mysql_engine : Engine) (entry : dict string pyval)
    (fields_of : list Row -> Res A) (s : Z * Stmt) (fields : A) : Prop :=
  exists result_proxy,
    execute_fetchall mysql_engine s.2 entry = Ok result_proxy /\
    fields_of result_proxy = Ok fields.

(** The cache entry of one prepared statement in single mode. *)
Definition compiled_single {PF : Platform} {SV : Services}
    (prepared_statement : ServingPreparedStatement) : Z * Stmt :=
  (prepared_statement_index prepared_statement,
   sql_text (rewrite_query (query_online prepared_statement)
               (pk_names_of prepared_statement))).

(** The dataset outside its serving state. *)
Definition same_dataset {PF : Platform} (td td' : TrainingDataset) : Prop :=
  schema td = schema td' /\
  transformation_functions td = transformation_functions td'.

(** The mode a batch size asks for. *)
Definition requested_mode (batch_size : option Z) : option Z :=
  match batch_size with
  | Some n => if bool_decide (1 < n) then Some n else None
  | None => None
  end.

(** ** A sample online store

    Two feature groups keyed by [id]; [fg1] has no row for [id = 4] and
    two rows for [id = 5].  A statement is its text and the names bound
    as expanding. *)
Module Sample.
#[export] Instance platform : Platform := {|
  Connector := string;
  Engine := string * bool;
  Stmt := string * list string;
  Schema := ()
|}.

Definition fg0 : list (Z * Row) :=
  [(1, [("a", PInt 10); ("b", PInt 11)]);
   (2, [("a", PInt 20); ("b", PInt 21)]);
   (3, [("a", PInt 30); ("b", PInt 31)]);
   (4, [("a", PInt 40); ("b", PInt 41)]);
   (5, [("a", PInt 50); ("b", PInt 51)])]%string.

Definition fg1 : list (Z * Row) :=
  [(1, [("c", PInt 12); ("d", PInt 13)]);
   (2, [("c", PInt 22); ("d", PInt 23)]);
   (3, [("c", PInt 32); ("d", PInt 33)]);
   (5, [("c", PInt 52); ("d", PInt 53)]);
   (5, [("c", PInt 54); ("d", PInt 55)])]%string.

Definition rows_of (table : list (Z * Row)) (id : Z) : list Row :=
  map snd (List.filter (fun r => Z.eqb (fst r) id) table).

Definition ids_of (v : pyval) : list Z :=
  match v with
  | PInt z => [z]
  | _ => []
  end.

(** The rows of [table] for the [id] of the entry; for a list of ids,
    the rows of each id in request order. *)
Definition select (table : list (Z * Row)) (entry : dict string pyval)
  : list Row :=
  match dict_get "id"%string entry with
  | Some (PInt z) => rows_of table z
  | Some (PList ids) => flat_map (fun v => flat_map (rows_of table) (ids_of v)) ids
  | _ => []
  end.

Definition q0 : string := "SELECT a, b FROM fg0 WHERE id = ?".
Definition q1 : string := "SELECT c, d
FROM fg1 WHERE id = ?".
Definition q2 : string := "SELECT a, b FROM fg0 WHERE id = ? AND ts = ?".

Definition ps0 : ServingPreparedStatement :=
  {| query_online := q0;
     prepared_statement_parameters := [{| psp_name := "id"; psp_index := 0 |}];
     prepared_statement_index := 0 |}.

Definition ps1 : ServingPreparedStatement :=
  {| query_online := q1;
     prepared_statement_parameters := [{| psp_name := "id"; psp_index := 0 |}];
     prepared_statement_index := 1 |}.

(** Its parameters are listed out of order. *)
Definition ps2 : ServingPreparedStatement :=
  {| query_online := q2;
     prepared_statement_parameters :=
       [{| psp_name := "ts"; psp_index := 1 |};
        {| psp_name := "id"; psp_index := 0 |}];
     prepared_statement_index := 0 |}.

(** The collaborators, for a metadata service that answers [listing]. *)
Definition services (listing : list ServingPreparedStatement) : Services :=
  {| COMPLEX_TYPES := ["MAP"; "ARRAY"; "STRUCT"; "UNIONTYPE"]%string;
     get_online_connector := Ok "onlinefs"%string;
     create_mysql_engine := fun conn external => Ok (conn, external);
     get_serving_prepared_statement := fun _ _ => Ok listing;
     get_td_transformation_fn := fun td => Ok (transformation_functions td);
     sql_text := fun text => (text, []);
     bindparams := fun stmt names => Ok (stmt.1, names);
     schema_read := fun _ v => Ok v;
     execute_fetchall := fun _ stmt entry =>
       if String.eqb stmt.1 "SELECT a, b FROM fg0 WHERE id = :id"
       then Ok (select fg0 entry)
       else if String.eqb stmt.1 "SELECT c, d FROM fg1 WHERE id = :id"
       then Ok (select fg1 entry)
       else if String.eqb stmt.1 "SELECT a, b FROM fg0 WHERE id = :id AND ts = :ts"
       then Ok (select fg0 entry)
       else Raise (External "no such table") |}.

(** A training dataset that was never initialised; its one
    transformation doubles feature [b]. *)
Definition double (v : pyval) : pyval :=
  match v with
  | PInt z => PInt (2 * z)
  | _ => v
  end.

Definition fresh : TrainingDataset :=
  {| schema := [];
     transformation_functions := [("b"%string, {| transformation_fn := double |})];
     prepared_statement_engine := None;
     prepared_statements := None;
     serving_keys := None;
     serving_batch_size := None |}.

(** [fresh] after [init_prepared_statement] with the given batch size,
    against a metadata service that answers [listing]. *)
Definition initialised (listing : list ServingPreparedStatement)
    (batch_size : option Z) : TrainingDataset :=
  (init_prepared_statement (SV := services listing) fresh batch_size false).1.

Definition doubling : dict string TransformationFunction :=
  [("b"%string, {| transformation_fn := double |});
   ("z"%string, {| transformation_fn := double |})].

Definition sample_row : dict string pyval :=
  [("a"%string, PInt 10); ("b"%string, PInt 11)].

Definition entry_of (id : pyval) : dict string pyval := [("id"%string, id)].

(** The statements the cache holds for [ps0], [ps1] and [ps2]. *)
Definition s0 : Stmt := ("SELECT a, b FROM fg0 WHERE id = :id"%string, []).
Definition s1 : Stmt := ("SELECT c, d FROM fg1 WHERE id = :id"%string, []).
Definition s2 : Stmt :=
  ("SELECT a, b FROM fg0 WHERE id = :id AND ts = :ts"%string, []).
End Sample.

(** ** Reference definitions for the further properties *)

(** Whether a batch size asks for batch mode. *)
Definition is_batch (batch_size : option Z) : bool :=
  match batch_size with
  | Some n => bool_decide (1 < n)
  | None => false
  end.

(** The dataset as [init_prepared_statement] shows it to its
    collaborators: the serving state reset, the batch size set when the
    call asks for batch mode. *)
Definition reset_for {PF : Platform} (training_dataset : TrainingDataset)
    (batch_size : option Z) : TrainingDataset :=
  match requested_mode batch_size with
  | Some n => set_serving_batch_size n (reset_serving training_dataset)
  | None => reset_serving training_dataset
  end.

(** The names of all parameters of all statements of a metadata answer. *)
Definition parameter_names (listing : list ServingPreparedStatement)
  : gset string :=
  list_to_set
    (concat (map (fun ps => map psp_name (prepared_statement_parameters ps))
                 listing)).

(** The batch size the auto-initialisation reads off the first value of
    an entry. *)
Definition entry_batch_size (v : pyval) : option Z :=
  if has_iter v then
    match py_len v with
    | Ok n => Some (Z.of_nat n)
    | Raise _ => None
    end
  else None.

(** Ordered by declared index. *)
Definition index_le (p q : PreparedStatementParameter) : Prop :=
  psp_index p <= psp_index q.

(** ** Saving and inserting: [TrainingDatasetEngine.save] and [insert]
    with the engine of [hsfs.engine.python] *)

Module Saving.

(** The exceptions of this path. *)
Inductive engine_exn : Type :=
| NotImplementedError        (* "Training dataset creation from Dataframes is not supported ..." *)
| OnlyQuerySupported         (* "Currently only query based training datasets are supported ..." *)
| TransformationsNeedQuery   (* ValueError "Transformation functions can only be applied ..." *)
| Failed (what : string).    (* raised by a collaborator *)

Inductive Try (A : Type) : Type :=
| Done (a : A)
| Thrown (e : engine_exn).
Arguments Done {A} a.
Arguments Thrown {A} e.

(** A feature of the dataset being saved: its name and its label flag. *)
Record Feature : Type := {
name : string;
label : bool
}.

Definition OVERWRITE : string := "overwrite".
Definition APPEND : string := "append".

(** The objects that pass through, opaque to the engine. *)
Class Kinds : Type := {
Query : Type;
Dataframe : Type;
Options : Type;
Registered : Type;   (* what [TrainingDatasetApi.post] returns *)
Job : Type
}.

Section Save.
Context {KD : Kinds}.

(** The [features] argument: a [query.Query] or anything else. *)
Inductive Features : Type :=
| IsQuery (q : Query)
| NotQuery (d : Dataframe).

(** The training dataset as [save] reads and writes it:
  [training_dataset.label], [_querydto], [_features] and
  [transformation_functions]. *)
Record Dataset : Type := {
td_label : list string;
td_querydto : option Query;
td_features : list Feature;
td_transformation_functions : dict string TransformationFunction
}.

(** The calls that leave the process. *)
Inductive Event : Type :=
| Posted (td : Dataset)                       (* [TrainingDatasetApi.post] *)
| JobStarted (td : Dataset) (overwrite : bool).  (* [TrainingDatasetApi.compute] *)

(** [engine.get_instance()]. *)
Class EngineInstance : Type := {
convert_to_default_dataframe : Dataframe -> Try Dataframe;
parse_schema_training_dataset : Dataframe -> Try (list Feature);
write_training_dataset :
  Dataset -> Features -> Options -> string -> list Event * Try Job
}.

(** The collaborators: [util.autofix_feature_name], the transformation
  function engine, the REST client, the dataframe libraries, and the
  rest of the Python engine's [write_training_dataset] after its
  guard (job configuration with the overwrite flag,
  [TrainingDatasetApi.compute], waiting for the job). *)
Class Collaborators : Type := {
autofix_feature_name : string -> string;
attach_transformation_fn : Dataset -> Try Dataset;
post : Dataset -> Try Registered;
convert_dataframe : Dataframe -> Try Dataframe;
start_job : Dataset -> Query -> bool -> Options -> Try Job
}.

Context {CB : Collaborators}.

(** The engine of [hsfs.engine.python], called without a feature view
  as [TrainingDatasetEngine] does. *)
Definition python_engine : EngineInstance := {|
convert_to_default_dataframe := convert_dataframe;
parse_schema_training_dataset := fun _ => Thrown NotImplementedError;
write_training_dataset := fun td dataset user_write_options save_mode =>
  match dataset with
  | NotQuery _ => ([], Thrown OnlyQuerySupported)
  | IsQuery q =>
      let overwrite := String.eqb save_mode "overwrite" in
      ([JobStarted td overwrite], start_job td q overwrite user_write_options)
  end
|}.

Definition set_features (features : list Feature) (td : Dataset) : Dataset :=
{| td_label := td_label td;
   td_querydto := td_querydto td;
   td_features := features;
   td_transformation_functions := td_transformation_functions td |}.

Definition set_querydto (q : Query) (td : Dataset) : Dataset :=
{| td_label := td_label td;
   td_querydto := Some q;
   td_features := td_features td;
   td_transformation_functions := td_transformation_functions td |}.

(** [for feature in training_dataset._features: if feature.name ==
  label_name: feature.label = True]. *)
Definition mark_label (label_name : string) (features : list Feature)
: list Feature :=
map (fun feature =>
       if decide (name feature = label_name)
       then {| name := name feature; label := true |}
       else feature)
    features.

(** [for label_name in training_dataset.label]. *)
Definition mark_labels (labels : list string) (features : list Feature)
: list Feature :=
foldl (fun fs label_name => mark_label label_name fs) features labels.

(** The two branches of [save] before the post. *)
Definition prepare {EI : EngineInstance} (training_dataset : Dataset)
  (features : Features) : Try (Dataset * Features) :=
match features with
| IsQuery q =>
    let td :=
      set_features
        (map (fun label_name =>
                {| name := autofix_feature_name label_name; label := true |})
             (td_label training_dataset))
        (set_querydto q training_dataset) in
    match attach_transformation_fn td with
    | Done td' => Done (td', features)
    | Thrown e => Thrown e
    end
| NotQuery d =>
    match convert_to_default_dataframe d with
    | Thrown e => Thrown e
    | Done d' =>
        match parse_schema_training_dataset d' with
        | Thrown e => Thrown e
        | Done parsed =>
            let td :=
              set_features (mark_labels (td_label training_dataset) parsed)
                training_dataset in
            match td_transformation_functions td with
            | [] => Done (td, NotQuery d')
            | _ :: _ => Thrown TransformationsNeedQuery
            end
        end
    end
end.

(** [save]: the calls that left the process, and the pair it returns or
  the exception it raises. *)
Definition save {EI : EngineInstance} (training_dataset : Dataset)
  (features : Features) (user_write_options : Options)
: list Event * Try (Registered * Job) :=
match prepare training_dataset features with
| Thrown e => ([], Thrown e)
| Done (td, features') =>
    match post td with
    | Thrown e => ([Posted td], Thrown e)
    | Done updated_instance =>
        let '(events, r) :=
          write_training_dataset td features' user_write_options OVERWRITE in
        (Posted td :: events,
         match r with
         | Done td_job => Done (updated_instance, td_job)
         | Thrown e => Thrown e
         end)
    end
end.

(** [insert]. *)
Definition insert {EI : EngineInstance} (training_dataset : Dataset)
  (dataset : Features) (user_write_options : Options) (overwrite : bool)
: list Event * Try Job :=
write_training_dataset training_dataset dataset user_write_options
  (if overwrite then OVERWRITE else APPEND).

(** A feature is a label after the marking when it was one or is named. *)
Definition marked (labels : list string) (feature : Feature) : Feature :=
if bool_decide (name feature ∈ labels)
then {| name := name feature; label := true |}
else feature.
End Save.
End Saving.

(** ** Further samples *)

Module MoreSamples.
Import Sample.

(** [ps2] with its parameters listed in index order. *)
Definition ps2_sorted : ServingPreparedStatement :=
{| query_online := q2;
   prepared_statement_parameters :=
     [{| psp_name := "id"; psp_index := 0 |};
      {| psp_name := "ts"; psp_index := 1 |}];
   prepared_statement_index := 0 |}.

(** A lookup on a table the store does not have. *)
Definition ps3 : ServingPreparedStatement :=
{| query_online := "SELECT x FROM gone WHERE id = ?";
   prepared_statement_parameters := [{| psp_name := "id"; psp_index := 0 |}];
   prepared_statement_index := 2 |}.

Definition s3 : Stmt := ("SELECT x FROM gone WHERE id = :id"%string, []).

(** The statements of [ps0] and [ps1] with their names bound as
  expanding, as batch mode caches them. *)
Definition s0_batch : Stmt := (s0.1, ["id"%string]).
Definition s1_batch : Stmt := (s1.1, ["id"%string]).

(** The sample collaborators with a reader that decodes bytes into
  text and refuses anything else. *)
Definition decoding_services : Services :=
{| COMPLEX_TYPES := COMPLEX_TYPES (Services := services []);
   get_online_connector := get_online_connector (Services := services []);
   create_mysql_engine := create_mysql_engine (Services := services []);
   get_serving_prepared_statement :=
     get_serving_prepared_statement (Services := services []);
   get_td_transformation_fn :=
     get_td_transformation_fn (Services := services []);
   sql_text := sql_text (Services := services []);
   bindparams := bindparams (Services := services []);
   schema_read := fun _ raw =>
     match raw with
     | PBytes b => Ok (PStr b)
     | _ => Raise (External "not an avro payload")
     end;
   execute_fetchall := execute_fetchall (Services := services []) |}.

(** A store that answers every statement with two rows of one column
  [c]: a number, which the reader refuses, then bytes. *)
Definition mixed_services : Services :=
{| COMPLEX_TYPES := COMPLEX_TYPES (Services := services []);
   get_online_connector := get_online_connector (Services := services []);
   create_mysql_engine := create_mysql_engine (Services := services []);
   get_serving_prepared_statement :=
     get_serving_prepared_statement (Services := services []);
   get_td_transformation_fn :=
     get_td_transformation_fn (Services := services []);
   sql_text := sql_text (Services := services []);
   bindparams := bindparams (Services := services []);
   schema_read := schema_read (Services := decoding_services);
   execute_fetchall := fun _ _ _ =>
     Ok [[("c"%string, PInt 1)]; [("c"%string, PBytes "ok")]] |}.

(** A dataset in single mode with one lookup and the complex feature
  [c]. *)
Definition mixed : TrainingDataset :=
{| schema :=
     [{| name := "c"; type := Some "array<int>"%string; avro_reader := () |}];
   transformation_functions := [];
   prepared_statement_engine := Some ("onlinefs"%string, false);
   prepared_statements := Some [(0, s1)];
   serving_keys := Some {["id"%string]};
   serving_batch_size := None |}.

Definition blob_schema : dict string Schema := [("blob"%string, ())].

Definition raw_row : dict string pyval :=
[("a"%string, PInt 1); ("blob"%string, PBytes "xy")].

Definition decoded_row : dict string pyval :=
[("a"%string, PInt 1); ("blob"%string, PStr "xy")].

(** A dataset with one complex feature among three. *)
Definition with_complex : TrainingDataset :=
{| schema :=
     [{| name := "a"; type := Some "int"%string; avro_reader := () |};
      {| name := "blob"; type := Some "array<int>"%string; avro_reader := () |};
      {| name := "c"; type := None; avro_reader := () |}];
   transformation_functions := [];
   prepared_statement_engine := None;
   prepared_statements := None;
   serving_keys := None;
   serving_batch_size := None |}.

Definition doubling_reversed : dict string TransformationFunction :=
[("z"%string, {| transformation_fn := double |});
 ("b"%string, {| transformation_fn := double |})].

(** Saving: opaque objects are numbers, every collaborator answers. *)
#[export] Instance kinds : Saving.Kinds := {|
Saving.Query := Z;
Saving.Dataframe := Z;
Saving.Options := ();
Saving.Registered := Z;
Saving.Job := Z
|}.

Definition collaborators : Saving.Collaborators := {|
Saving.autofix_feature_name := fun s => s;
Saving.attach_transformation_fn := fun td => Saving.Done td;
Saving.post := fun _ => Saving.Done 1;
Saving.convert_dataframe := fun d => Saving.Done d;
Saving.start_job := fun _ _ _ _ => Saving.Done 2
|}.

(** An engine that reads a schema off a dataframe. *)
Definition parsing_engine : Saving.EngineInstance := {|
Saving.convert_to_default_dataframe := fun d => Saving.Done d;
Saving.parse_schema_training_dataset := fun _ =>
  Saving.Done [{| Saving.name := "a"; Saving.label := false |};
               {| Saving.name := "y"; Saving.label := false |}];
Saving.write_training_dataset := fun _ _ _ _ => ([], Saving.Done 2)
|}.

Definition draft : Saving.Dataset :=
{| Saving.td_label := ["y"%string];
   Saving.td_querydto := None;
   Saving.td_features := [];
   Saving.td_transformation_functions := doubling |}.
End MoreSamples.

(** * Properties *)

(** ** Dictionaries *)

Section DictFacts.
Context {K V : Type} `{EqDecision K}.
Implicit Types (d : dict K V) (k : K) (v : V).

Lemma dict_get_set_eq d k v : dict_get k (dict_set k v d) = Some v.
Proof.
  induction d as [|[k' v'] d IH]; simpl.
  - by rewrite decide_True.
  - destruct (decide (k = k')) as [->|Hne]; simpl.
    + by rewrite decide_True.
    + by rewrite decide_False.
Qed.

Lemma dict_get_set_ne d k k' v :
  k ≠ k' → dict_get k' (dict_set k v d) = dict_get k' d.
Proof.
  intros Hne. induction d as [|[k0 v0] d IH]; simpl.
  - by rewrite decide_False.
  - destruct (decide (k = k0)) as [->|Hk]; simpl.
    + by rewrite !decide_False.
    + by rewrite IH.
Qed.

Lemma dict_keys_set_present d k v :
  is_Some (dict_get k d) → dict_keys (dict_set k v d) = dict_keys d.
Proof.
  unfold dict_keys. induction d as [|[k0 v0] d IH]; simpl.
  - by intros [? ?].
  - destruct (decide (k = k0)) as [->|Hk]; simpl; [done|].
    intros Hs. f_equal. exact (IH Hs).
Qed.

Lemma dict_get_None d k : k ∉ dict_keys d → dict_get k d = None.
Proof.
  unfold dict_keys. induction d as [|[k0 v0] d IH]; simpl; [done|].
  intros Hk. apply not_elem_of_cons in Hk as [Hne Hk].
  rewrite decide_False by done. by apply IH.
Qed.

Lemma dict_get_Some_keys d k v : dict_get k d = Some v → k ∈ dict_keys d.
Proof.
  unfold dict_keys. induction d as [|[k0 v0] d IH]; simpl; [done|].
  destruct (decide (k = k0)) as [->|Hk]; [intros _; left|intros Hd; right; auto].
Qed.
End DictFacts.

(** ** Transformation applier *)

Section Transformation.

Lemma apply_transformation_keys fns (row : dict string pyval) :
  dict_keys (_apply_transformation fns row) = dict_keys row.
Proof.
  revert row. induction fns as [|[fname tf] fns IH]; intros row; simpl; [done|].
  destruct (dict_get fname row) as [v|] eqn:Hget; rewrite IH; [|done].
  apply dict_keys_set_present. by rewrite Hget.
Qed.

Lemma apply_transformation_get fns (row : dict string pyval) k :
  dict_wf fns →
  dict_get k (_apply_transformation fns row) =
    match dict_get k row, dict_get k fns with
    | Some v, Some tf => Some (transformation_fn tf v)
    | Some v, None => Some v
    | None, _ => None
    end.
Proof.
  unfold dict_wf, dict_keys. revert row.
  induction fns as [|[fname tf] fns IH]; intros row Hwf; simpl.
  - by destruct (dict_get k row).
  - apply NoDup_cons in Hwf as [Hfresh Hwf].
    destruct (decide (k = fname)) as [->|Hne].
    + rewrite (dict_get_None fns fname) in IH by done.
      destruct (dict_get fname row) as [v|] eqn:Hget; rewrite IH by done.
      * by rewrite dict_get_set_eq.
      * by rewrite Hget.
    + destruct (dict_get fname row) as [v|] eqn:Hget; rewrite IH by done.
      * by rewrite dict_get_set_ne.
      * done.
Qed.

(** C9.  The transformation applier keeps the fields of the row and
    their order; the value of a feature named by both the mapping and
    the row becomes the transformation function applied to it; every
    other field keeps its value; a mapping entry whose feature the row
    lacks adds nothing. *)
Theorem apply_transformation_frame
    (transformation_fns : dict string TransformationFunction)
    (row_dict : dict string pyval) :
  dict_wf transformation_fns →
  dict_keys (_apply_transformation transformation_fns row_dict)
    = dict_keys row_dict ∧
  ∀ feature_name,
    dict_get feature_name (_apply_transformation transformation_fns row_dict) =
      match dict_get feature_name row_dict,
            dict_get feature_name transformation_fns with
      | Some v, Some tf => Some (transformation_fn tf v)
      | Some v, None => Some v
      | None, _ => None
      end.
Proof.
  intros Hwf. split; [apply apply_transformation_keys|].
  intros k. by apply apply_transformation_get.
Qed.
End Transformation.

(** ** Template rewriter *)

Section Rewriter.
Implicit Types (s q template : string) (c : ascii).

Lemma count_char_app c s1 s2 :
  count_char c (s1 +:+ s2) = (count_char c s1 + count_char c s2)%nat.
Proof. induction s1 as [|c1 s1 IH]; simpl; [done|]. rewrite IH. lia. Qed.

Lemma replace_newlines_clean s : count_char newline (replace_newlines s) = 0%nat.
Proof.
  induction s as [|c s IH]; simpl; [done|].
  destruct (Ascii.eqb c newline) eqn:E; simpl.
  - done.
  - by rewrite E.
Qed.

Lemma replace_newlines_qmarks s :
  count_char qmark (replace_newlines s) = count_char qmark s.
Proof.
  induction s as [|c s IH]; simpl; [done|]. rewrite IH.
  destruct (Ascii.eqb_spec c newline) as [->|]; done.
Qed.

Lemma re_sub_placeholder_qmark pk_name q :
  re_sub_placeholder pk_name (String qmark q) = (":" +:+ pk_name) +:+ q.
Proof. done. Qed.

Lemma re_sub_placeholder_other pk_name c q :
  Ascii.eqb c qmark = false → Ascii.eqb c newline = false →
  re_sub_placeholder pk_name (String c q) = String c (re_sub_placeholder pk_name q).
Proof.
  intros Hq Hn. unfold re_sub_placeholder. simpl. rewrite Hq, Hn.
  by destruct (match_first_placeholder q) as [[g rest]|].
Qed.

Lemma named_query_prefix p s pk_names :
  count_char qmark p = 0%nat →
  named_query (p +:+ s) pk_names = p +:+ named_query s pk_names.
Proof.
  induction p as [|c p IH]; simpl; [done|].
  destruct (Ascii.eqb c qmark); [done|]. intros Hp. by rewrite IH.
Qed.

(** One substitution consumes the first placeholder and the first name. *)
Lemma named_query_re_sub pk_name pk_names q :
  count_char newline q = 0%nat → count_char qmark pk_name = 0%nat →
  named_query (re_sub_placeholder pk_name q) pk_names
    = named_query q (pk_name :: pk_names).
Proof.
  intros Hq Hname. induction q as [|c q IH]; [done|].
  simpl in Hq. destruct (Ascii.eqb c newline) eqn:Hn; [done|].
  destruct (Ascii.eqb c qmark) eqn:Hc.
  - apply Ascii.eqb_eq in Hc as ->.
    rewrite re_sub_placeholder_qmark, named_query_prefix; [reflexivity|].
    exact Hname.
  - rewrite re_sub_placeholder_other by done. simpl. rewrite Hc.
    by rewrite IH.
Qed.

Lemma re_sub_placeholder_clean pk_name q :
  count_char newline q = 0%nat → count_char newline pk_name = 0%nat →
  count_char newline (re_sub_placeholder pk_name q) = 0%nat.
Proof.
  intros Hq Hname. induction q as [|c q IH]; [done|].
  simpl in Hq. destruct (Ascii.eqb c newline) eqn:Hn; [done|].
  destruct (Ascii.eqb c qmark) eqn:Hc.
  - apply Ascii.eqb_eq in Hc as ->.
    rewrite re_sub_placeholder_qmark, !count_char_app.
    change (count_char newline ":") with 0%nat. lia.
  - rewrite re_sub_placeholder_other by done. simpl. rewrite Hn. by apply IH.
Qed.

Lemma name_ok_qmark pk_name : name_ok pk_name = true → count_char qmark pk_name = 0%nat.
Proof.
  unfold name_ok. rewrite !andb_true_iff, !bool_decide_eq_true. tauto.
Qed.

Lemma name_ok_newline pk_name :
  name_ok pk_name = true → count_char newline pk_name = 0%nat.
Proof.
  unfold name_ok. rewrite !andb_true_iff, !bool_decide_eq_true. tauto.
Qed.

Lemma rewrite_loop_keys pk_names (keys : gset string) q :
  (rewrite_loop pk_names (keys, q)).1 = list_to_set pk_names ∪ keys.
Proof.
  unfold rewrite_loop. revert keys q.
  induction pk_names as [|n ns IH]; intros keys q; simpl.
  - by rewrite (left_id_L ∅ (∪)).
  - unfold rewrite_step at 2. simpl.
    by rewrite IH, (assoc_L (∪)), (comm_L (∪) {[n]}).
Qed.

Lemma rewrite_loop_query pk_names (keys : gset string) q :
  count_char newline q = 0%nat →
  Forall (λ n, name_ok n = true) pk_names →
  (rewrite_loop pk_names (keys, q)).2 = named_query q pk_names.
Proof.
  unfold rewrite_loop. revert keys q.
  induction pk_names as [|n ns IH]; intros keys q Hq Hnames; simpl.
  - clear Hq. induction q as [|c q IHq]; simpl; [done|].
    rewrite <-IHq. by destruct (Ascii.eqb c qmark).
  - apply Forall_cons in Hnames as [Hn Hns].
    unfold rewrite_step at 2. simpl. rewrite IH; [|  |done].
    + apply named_query_re_sub; [done|by apply name_ok_qmark].
    + apply re_sub_placeholder_clean; [done|by apply name_ok_newline].
Qed.

Lemma named_query_qmarks q pk_names :
  Forall (λ n, name_ok n = true) pk_names →
  count_char qmark (named_query q pk_names)
    = (count_char qmark q - length pk_names)%nat.
Proof.
  revert pk_names. induction q as [|c q IH]; intros ns Hns; simpl; [done|].
  destruct (Ascii.eqb c qmark) eqn:Hc.
  - destruct ns as [|n ns].
    + simpl. rewrite Hc, IH by done. simpl. lia.
    + apply Forall_cons in Hns as [Hn Hns].
      change (count_char qmark ((":" +:+ n) +:+ named_query q ns)
              = (1 + count_char qmark q - S (length ns))%nat).
      rewrite !count_char_app, (name_ok_qmark n), IH by done.
      change (count_char qmark ":") with 0%nat. lia.
  - simpl. rewrite Hc. by rewrite IH.
Qed.

End Rewriter.

(** ** Vector assembler *)

Section SlotFacts.
Implicit Types (vs pre suf : list (list pyval)) (o : nat).

Lemma dict_values_slots_from o vs : dict_values (slots_from o vs) = vs.
Proof.
  unfold dict_values. revert o.
  induction vs as [|v vs IH]; intros o; [done|].
  cbn [slots_from]. rewrite fmap_cons. f_equal. apply IH.
Qed.

Lemma dict_get_slots_from o pre suf :
  dict_get (o + length pre)%nat (slots_from o (pre ++ suf)) = head suf.
Proof.
  revert o. induction pre as [|p pre IH]; intros o.
  - rewrite Nat.add_0_r. destruct suf as [|v suf]; simpl; [done|].
    by rewrite decide_True.
  - simpl. rewrite decide_False by lia.
    replace (o + S (length pre))%nat with (S o + length pre)%nat by lia.
    apply IH.
Qed.

Lemma dict_set_slots_from_present o pre v suf x :
  dict_set (o + length pre)%nat x (slots_from o (pre ++ v :: suf))
    = slots_from o (pre ++ x :: suf).
Proof.
  revert o. induction pre as [|p pre IH]; intros o.
  - rewrite Nat.add_0_r. simpl. by rewrite decide_True.
  - simpl. rewrite decide_False by lia.
    replace (o + S (length pre))%nat with (S o + length pre)%nat by lia.
    by rewrite IH.
Qed.

Lemma dict_set_slots_from_absent o pre x :
  dict_set (o + length pre)%nat x (slots_from o pre) = slots_from o (pre ++ [x]).
Proof.
  revert o. induction pre as [|p pre IH]; intros o.
  - by rewrite Nat.add_0_r.
  - simpl. rewrite decide_False by lia.
    replace (o + S (length pre))%nat with (S o + length pre)%nat by lia.
    by rewrite IH.
Qed.

Lemma dict_get_slots pre suf :
  dict_get (length pre) (slots_from 0 (pre ++ suf)) = head suf.
Proof. exact (dict_get_slots_from 0 pre suf). Qed.

Lemma dict_set_slots_present pre v suf x :
  dict_set (length pre) x (slots_from 0 (pre ++ v :: suf))
    = slots_from 0 (pre ++ x :: suf).
Proof. exact (dict_set_slots_from_present 0 pre v suf x). Qed.

Lemma dict_set_slots_absent pre x :
  dict_set (length pre) x (slots_from 0 pre) = slots_from 0 (pre ++ [x]).
Proof. exact (dict_set_slots_from_absent 0 pre x). Qed.

Lemma stitch_nil_r vs : stitch vs [] = vs.
Proof. by destruct vs. Qed.

Lemma length_stitch vs fs : length vs = length fs → length (stitch vs fs) = length fs.
Proof.
  revert fs. induction vs as [|v vs IH]; intros [|f fs]; simpl; try done.
  intros [=Hlen]. by rewrite IH.
Qed.

Lemma lookup_stitch vs fs i v f :
  vs !! i = Some v → fs !! i = Some f → stitch vs fs !! i = Some (v ++ f).
Proof.
  revert fs i. induction vs as [|v0 vs IH]; intros [|f0 fs] [|i]; simpl; try done.
  - by intros [= ->] [= ->].
  - apply IH.
Qed.
End SlotFacts.

Section Assembler.
Context {PF : Platform} {SV : Services}.
Implicit Types (cf : dict string Schema)
  (fns : dict string TransformationFunction)
  (entry : dict string pyval) (rows : list Row)
  (bd : dict nat (list pyval)) (sv : list pyval).

Lemma last_cons_default {A} (x y : A) (l : list A) :
  default y (last (x :: l)) = default x (last l).
Proof.
  destruct l as [|z l]; [done|]. change (last (x :: z :: l)) with (last (z :: l)).
  destruct (last (z :: l)) eqn:E; [done|]. by apply last_None in E.
Qed.

Lemma default_fmap_last {A B} (f : A → B) (a : A) (b : B) (l : list A) :
  f a = b → default b (f <$> last l) = f (default a (last l)).
Proof. intros <-. by destruct (last l). Qed.

(** The row loop in single mode: the last decoded row survives. *)
Lemma rows_loop_single cf fns rows n rd bd :
  rows_loop cf fns false rows n rd bd =
    (λ ds, (default rd (last ds), bd)) <$> mapM (process_row cf fns) rows.
Proof.
  revert n rd. induction rows as [|r rows IH]; intros n rd; [done|].
  cbn [rows_loop mapM]. destruct (process_row cf fns r) as [d|e]; [|done].
  cbn. rewrite IH. destruct (mapM (process_row cf fns) rows) as [ds|e]; [|done].
  cbn. by rewrite last_cons_default.
Qed.

(** The row loop in batch mode: slot by slot from its counter on. *)
Lemma rows_loop_batch cf fns rows pre suf rd :
  rows_loop cf fns true rows (length pre) rd (slots_from 0 (pre ++ suf)) =
    (λ ds, (default rd (last ds),
            slots_from 0 (pre ++ stitch suf (dict_values <$> ds))))
      <$> mapM (process_row cf fns) rows.
Proof.
  revert pre suf rd. induction rows as [|r rows IH]; intros pre suf rd.
  - cbn. by rewrite stitch_nil_r.
  - cbn [rows_loop mapM]. destruct (process_row cf fns r) as [d|e]; [|done].
    cbn [mbind Res_bind].
    rewrite dict_get_slots.
    destruct suf as [|v suf]; cbn [head].
    + rewrite app_nil_r, dict_set_slots_absent.
      replace (S (length pre)) with (length (pre ++ [dict_values d]))
        by (rewrite length_app; simpl; lia).
      rewrite <-(app_nil_r (pre ++ [dict_values d])) at 2. rewrite IH.
      destruct (mapM (process_row cf fns) rows) as [ds|e]; [|done].
      cbn. rewrite last_cons_default, <-app_assoc. by destruct ds.
    + rewrite dict_set_slots_present.
      replace (S (length pre)) with (length (pre ++ [v ++ dict_values d]))
        by (rewrite length_app; simpl; lia).
      replace (pre ++ (v ++ dict_values d) :: suf)
        with ((pre ++ [v ++ dict_values d]) ++ suf) by by rewrite <-app_assoc.
      rewrite IH.
      destruct (mapM (process_row cf fns) rows) as [ds|e]; [|done].
      cbn. by rewrite last_cons_default, <-app_assoc.
Qed.

Lemma lookup_fields_inv cf fns rows fields :
  lookup_fields cf fns rows = Ok fields →
  ∃ ds, mapM (process_row cf fns) rows = Ok ds ∧
        fields = dict_values (default [] (last ds)).
Proof.
  unfold lookup_fields. destruct (mapM _ rows) as [ds|e]; [|done].
  cbn. intros [= <-]. exists ds. split; [done|].
  by apply (default_fmap_last dict_values).
Qed.

Lemma batch_fields_inv cf fns rows table :
  batch_fields cf fns rows = Ok table →
  ∃ ds, mapM (process_row cf fns) rows = Ok ds ∧ table = dict_values <$> ds.
Proof.
  unfold batch_fields. revert table.
  induction rows as [|r rows IH]; intros table.
  - intros [= <-]. by exists [].
  - cbn [mapM]. destruct (process_row cf fns r) as [d|e]; [|done]. cbn.
    destruct (mapM (λ row, dict_values <$> process_row cf fns row) rows)
      as [t|e]; [|done].
    cbn. intros [= <-]. destruct (IH t eq_refl) as (ds & -> & ->).
    by exists (d :: ds).
Qed.

(** The statement loop in single mode: the statements are sent in the
    order of the cache and each appends its fields. *)
Lemma statements_loop_single eng cf fns entry statements contribs trace sv bd :
  Forall2 (answers eng entry (lookup_fields cf fns)) statements contribs →
  statements_loop (Some eng) cf fns entry false statements trace sv bd
    = (trace ++ statements.*1, Ok (sv ++ concat contribs, bd)).
Proof.
  intros Hall. revert trace sv.
  induction Hall as [|[idx stmt] fields statements contribs Hans _ IH];
    intros trace sv.
  - cbn. by rewrite !app_nil_r.
  - destruct Hans as (rows & Hexec & Hfields). cbn in Hexec.
    apply lookup_fields_inv in Hfields as (ds & Hds & ->).
    cbn [statements_loop]. rewrite Hexec, rows_loop_single, Hds. cbn.
    rewrite IH. by rewrite <-!app_assoc.
Qed.

(** The statement loop in batch mode. *)
Lemma statements_loop_batch eng cf fns entry statements tables trace sv vs :
  Forall2 (answers eng entry (batch_fields cf fns)) statements tables →
  statements_loop (Some eng) cf fns entry true statements trace sv
      (slots_from 0 vs)
    = (trace ++ statements.*1, Ok (sv, slots_from 0 (foldl stitch vs tables))).
Proof.
  intros Hall. revert trace vs.
  induction Hall as [|[idx stmt] table statements tables Hans _ IH];
    intros trace vs.
  - cbn. by rewrite !app_nil_r.
  - destruct Hans as (rows & Hexec & Hfields). cbn in Hexec.
    apply batch_fields_inv in Hfields as (ds & Hds & ->).
    cbn [statements_loop]. rewrite Hexec.
    rewrite (rows_loop_batch cf fns rows [] vs), Hds. cbn.
    rewrite IH. by rewrite <-!app_assoc.
Qed.

Lemma statements_loop_app eng cf fns entry batch (s1 s2 : dict Z Stmt)
    trace sv bd :
  statements_loop eng cf fns entry batch (s1 ++ s2) trace sv bd =
    match statements_loop eng cf fns entry batch s1 trace sv bd with
    | (t, Ok (sv', bd')) => statements_loop eng cf fns entry batch s2 t sv' bd'
    | (t, Raise e) => (t, Raise e)
    end.
Proof.
revert trace sv bd. induction s1 as [|[idx stmt] s1 IH]; intros trace sv bd;
  [done|].
cbn [app statements_loop]. destruct eng as [mysql_conn|]; [|done].
destruct (execute_fetchall mysql_conn stmt entry) as [rows|e]; [|done].
destruct (rows_loop cf fns batch rows 0 [] bd) as [[rd bd']|e]; [|done].
apply IH.
Qed.


(** [get_serving_vector] on an initialised dataset whose entry passes
    the checks. *)
Lemma get_serving_vector_checked td entry external statements batch :
  prepared_statements td = Some statements →
  check_mode td entry = Ok batch →
  keys_match td entry = true →
  get_serving_vector td entry external =
    (td, (assemble td entry batch).1, (assemble td entry batch).2).
Proof.
  intros Hps Hmode Hkeys. unfold get_serving_vector, auto_init.
  rewrite Hps, Hmode, Hkeys. cbn. by destruct (assemble td entry batch).
Qed.

(** Single mode, all checks passed: the trace is the cache order and
    the vector the concatenation of the lookups' fields in that order. *)
Lemma single_mode_assembly td entry external eng statements contribs :
  prepared_statements td = Some statements →
  prepared_statement_engine td = Some eng →
  check_mode td entry = Ok false →
  keys_match td entry = true →
  Forall2 (answers eng entry
             (lookup_fields (get_complex_feature_schemas td)
                (transformation_functions td))) statements contribs →
  get_serving_vector td entry external
    = (td, statements.*1, Ok (Vector (concat contribs))).
Proof.
  intros Hps Heng Hmode Hkeys Hall.
  rewrite (get_serving_vector_checked td entry external statements false)
    by done.
  unfold assemble. rewrite Hps, Heng.
  by rewrite (statements_loop_single _ _ _ _ _ contribs).
Qed.

(** Batch mode, all checks passed. *)
Lemma batch_mode_assembly td entry external eng statements tables :
  prepared_statements td = Some statements →
  prepared_statement_engine td = Some eng →
  check_mode td entry = Ok true →
  keys_match td entry = true →
  Forall2 (answers eng entry
             (batch_fields (get_complex_feature_schemas td)
                (transformation_functions td))) statements tables →
  get_serving_vector td entry external
    = (td, statements.*1, Ok (BatchVectors (foldl stitch [] tables))).
Proof.
  intros Hps Heng Hmode Hkeys Hall.
  rewrite (get_serving_vector_checked td entry external statements true)
    by done.
  unfold assemble. rewrite Hps, Heng.
  rewrite (statements_loop_batch _ _ _ _ _ tables [] [] []) by done.
  cbn. by rewrite dict_values_slots_from.
Qed.
End Assembler.

Section Claims.
Context {PF : Platform} {SV : Services}.
Implicit Types (td : TrainingDataset) (entry : dict string pyval)
  (statements : dict Z Stmt).

(** C1 (amended).  In single mode, on a dataset whose statement cache
    holds lookup 0 before lookup 1 (the order in which
    [init_prepared_statement] inserted them), with the two lookups
    contributing the fields [a, b] and [c, d], the statements are sent
    to the online store as 0 then 1 and the vector returned is
    [a, b, c, d]. *)
Theorem single_vector_in_cache_order td entry external eng s0 s1 a b c d :
  prepared_statements td = Some [(0, s0); (1, s1)] →
  prepared_statement_engine td = Some eng →
  check_mode td entry = Ok false →
  keys_match td entry = true →
  answers eng entry
    (lookup_fields (get_complex_feature_schemas td) (transformation_functions td))
    (0, s0) [a; b] →
  answers eng entry
    (lookup_fields (get_complex_feature_schemas td) (transformation_functions td))
    (1, s1) [c; d] →
  get_serving_vector td entry external = (td, [0; 1], Ok (Vector [a; b; c; d])).
Proof.
  intros Hps Heng Hmode Hkeys H0 H1.
  apply (single_mode_assembly td entry external eng
           [(0, s0); (1, s1)] [[a; b]; [c; d]]); try done.
  by repeat constructor.
Qed.

End Claims.

(** ** Batch stitching *)

Section Stitching.
Implicit Types (vs : list (list pyval)) (tables : list (list (list pyval))).

Lemma batch_vector_cons table tables i :
  batch_vector (table :: tables) i
    = default [] (table !! i) ++ batch_vector tables i.
Proof. done. Qed.

Lemma foldl_stitch_lookup tables vs n :
  length vs = n → Forall (λ t, length t = n) tables →
  length (foldl stitch vs tables) = n ∧
  ∀ i v, vs !! i = Some v →
         foldl stitch vs tables !! i = Some (v ++ batch_vector tables i).
Proof.
  revert vs. induction tables as [|t tables IH]; intros vs Hvs Hall.
  - split; [done|]. intros i v Hv. cbn. by rewrite app_nil_r.
  - apply Forall_cons in Hall as [Ht Hall]. cbn [foldl].
    destruct (IH (stitch vs t)) as [Hlen Hlook]; [|done|].
    { rewrite length_stitch; congruence. }
    split; [done|]. intros i v Hv.
    destruct (lookup_lt_is_Some_2 t i) as [f Hf].
    { rewrite Ht, <-Hvs. by eapply lookup_lt_Some. }
    rewrite (Hlook i (v ++ f)) by by apply lookup_stitch.
    by rewrite batch_vector_cons, Hf, app_assoc.
Qed.

(** Result sets of [n] rows each give [n] vectors, slot by slot. *)
Lemma foldl_stitch_tables tables n :
  tables ≠ [] → Forall (λ t, length t = n) tables →
  foldl stitch [] tables = map (batch_vector tables) (seq 0 n).
Proof.
  destruct tables as [|t tables]; [done|]. intros _ Hall.
  apply Forall_cons in Hall as [Ht Hall]. cbn [foldl stitch].
  destruct (foldl_stitch_lookup tables t n Ht Hall) as [Hlen Hlook].
  apply list_eq. intros i. rewrite list_lookup_fmap.
  destruct (decide (i < n)%nat) as [Hi|Hi].
  - rewrite lookup_seq_lt by done.
    destruct (lookup_lt_is_Some_2 t i) as [f Hf]; [by rewrite Ht|].
    change (batch_vector (t :: tables) <$> Some (0 + i)%nat)
      with (Some (batch_vector (t :: tables) i)).
    by rewrite (Hlook i f Hf), batch_vector_cons, Hf.
  - rewrite lookup_ge_None_2 by lia.
    by rewrite lookup_seq_ge by lia.
Qed.

Lemma length_batch_vector tables widths n i :
  Forall (λ t, length t = n) tables →
  Forall2 (λ t w, Forall (λ f, length f = w) t) tables widths →
  (i < n)%nat →
  length (batch_vector tables i) = sum_list widths.
Proof.
  intros Hall Hwidths Hi.
  induction Hwidths as [|t w tables widths Hw _ IH]; [done|].
  apply Forall_cons in Hall as [Ht Hall].
  rewrite batch_vector_cons, length_app, IH by done. cbn. f_equal.
  destruct (lookup_lt_is_Some_2 t i) as [f Hf]; [by rewrite Ht|].
  rewrite Hf. cbn. rewrite Forall_forall in Hw. apply Hw.
  by eapply list_elem_of_lookup_2.
Qed.
End Stitching.

Section BatchClaims.
Context {PF : Platform} {SV : Services}.
Implicit Types (td : TrainingDataset) (entry : dict string pyval)
  (statements : dict Z Stmt).

(** C2 (amended).  In batch mode with configured batch size [n], on a
    dataset with at least one prepared lookup, when every lookup
    returns [n] rows, [n] vectors are returned, in ascending order of
    batch slot; vector [i] is the concatenation of the fields of row
    [i] of every lookup, the lookups taken in the order of the
    statement cache; when the rows of each lookup have the same number
    of fields, all vectors have the same length. *)
Theorem batch_vectors_stitched td entry external eng statements tables n :
  prepared_statements td = Some statements →
  statements ≠ [] →
  prepared_statement_engine td = Some eng →
  serving_batch_size td = Some (Z.of_nat n) →
  check_mode td entry = Ok true →
  keys_match td entry = true →
  Forall2 (answers eng entry
             (batch_fields (get_complex_feature_schemas td)
                (transformation_functions td))) statements tables →
  Forall (λ table, length table = n) tables →
  get_serving_vector td entry external =
    (td, statements.*1,
     Ok (BatchVectors (map (batch_vector tables) (seq 0 n)))) ∧
  length (map (batch_vector tables) (seq 0 n)) = n ∧
  ∀ widths,
    Forall2 (λ table w, Forall (λ f, length f = w) table) tables widths →
    Forall (λ vector, length vector = sum_list widths)
           (map (batch_vector tables) (seq 0 n)).
Proof.
  intros Hps Hne Heng _ Hmode Hkeys Hall Hrows. split; [|split].
  - rewrite (batch_mode_assembly td entry external eng statements tables)
      by done.
    rewrite (foldl_stitch_tables tables n); [done| |done].
    intros ->. apply Forall2_nil_inv_r in Hall. done.
  - by rewrite length_map, length_seq.
  - intros widths Hwidths. apply Forall_forall. intros v Hv.
    apply list_elem_of_fmap in Hv as (i & -> & Hi).
    apply elem_of_seq in Hi.
    apply (length_batch_vector tables widths n i); [done..|lia].
Qed.

Lemma is_list_has_iter v : is_list v = true → has_iter v = true.
Proof. by destruct v. Qed.

(** The errors of the shape check are the mode mismatch of the
    specification. *)
Lemma shape_errors_are_mode_mismatches :
  ServingModeMismatch (ValueError EntryExpectedSingle) ∧
  ServingModeMismatch (ValueError EntryExpectedList) ∧
  ServingModeMismatch (ValueError BatchSizeDiffers) ∧
  ¬ ServingModeMismatch KeyMismatch.
Proof.
  unfold ServingModeMismatch, KeyMismatch. repeat split; auto.
  intros [?|[?|?]]; discriminate.
Qed.

(** C6 (amended).  On an initialised dataset the shape check looks at
    the first value of the entry: in single mode an entry whose first
    value is a list raises the mode mismatch, in batch mode an entry
    whose first value is not iterable raises it; no statement is sent. *)
Theorem mode_check_on_first_value td entry external statements v :
  prepared_statements td = Some statements →
  first_value entry = Ok v →
  (batch_mode td = false → is_list v = true →
   get_serving_vector td entry external
     = (td, [], Raise (ValueError EntryExpectedSingle))) ∧
  (batch_mode td = true → has_iter v = false →
   get_serving_vector td entry external
     = (td, [], Raise (ValueError EntryExpectedList))).
Proof.
  intros Hps Hfirst.
  split; intros Hmode Hv; unfold get_serving_vector, auto_init, check_mode;
    rewrite Hps, Hmode, Hfirst; cbn.
  - by rewrite Hv, is_list_has_iter.
  - rewrite Hv. by destruct v.
Qed.

Lemma keys_match_true td entry :
  keys_match td entry = true ↔
  serving_keys td = Some (list_to_set (dict_keys entry)).
Proof.
  unfold keys_match. destruct (serving_keys td) as [keys|]; [|done].
  rewrite bool_decide_eq_true. split; [by intros ->|by intros [= ->]].
Qed.

(** A key mismatch never reaches the online store. *)
Lemma key_mismatch_sends_nothing td entry external statements :
  prepared_statements td = Some statements →
  serving_keys td ≠ Some (list_to_set (dict_keys entry)) →
  ∃ e, get_serving_vector td entry external = (td, [], Raise e).
Proof.
  intros Hps Hkeys. unfold get_serving_vector, auto_init. rewrite Hps.
  destruct (check_mode td entry) as [batch|e]; [|by exists e].
  destruct (keys_match td entry) eqn:Hm.
  - by apply keys_match_true in Hm.
  - by exists KeyMismatch.
Qed.

(** C7 (amended).  On an initialised dataset, an entry that passes the
    shape check of the mode and whose key set differs from the cached
    serving keys raises the key mismatch, and no statement is sent to
    the online store. *)
Theorem key_mismatch_before_queries td entry external statements batch :
  prepared_statements td = Some statements →
  check_mode td entry = Ok batch →
  serving_keys td ≠ Some (list_to_set (dict_keys entry)) →
  get_serving_vector td entry external = (td, [], Raise KeyMismatch).
Proof.
  intros Hps Hmode Hkeys. unfold get_serving_vector, auto_init.
  rewrite Hps, Hmode.
  destruct (keys_match td entry) eqn:Hm; [|done].
  by apply keys_match_true in Hm.
Qed.

Lemma reset_serving_same td td' :
  same_dataset td td' → reset_serving td = reset_serving td'.
Proof. intros [Hs Hf]. unfold reset_serving. by rewrite Hs, Hf. Qed.

Lemma init_batch_size td batch_size external :
  serving_batch_size (init_prepared_statement td batch_size external).1
    = requested_mode batch_size.
Proof.
  unfold init_prepared_statement, requested_mode.
  destruct batch_size as [n|]; [destruct (bool_decide (1 < n))|];
    repeat (match goal with
            | |- context [match ?r with Ok _ => _ | Raise _ => _ end] =>
                destruct r as [?|?]
            | |- context [let '(_, _) := ?p in _] => destruct p
            end; cbn); done.
Qed.

(** C8.  [init_prepared_statement] gives the same dataset and the same
    outcome whatever cache, engine, serving keys and batch size the
    dataset held before: two datasets that differ in those four fields
    only are initialised alike, and the batch size left behind is the
    one the call asked for. *)
Theorem init_forgets_serving_state td td' batch_size external :
  same_dataset td td' →
  init_prepared_statement td batch_size external
    = init_prepared_statement td' batch_size external ∧
  serving_batch_size (init_prepared_statement td batch_size external).1
    = requested_mode batch_size.
Proof.
  intros Hsame. split; [|apply init_batch_size].
  unfold init_prepared_statement. by rewrite (reset_serving_same td td').
Qed.
End BatchClaims.

(** ** The checks on the batch size *)

Section BatchSizeCheck.
Context {PF : Platform} {SV : Services}.
Implicit Types (td : TrainingDataset) (entry : dict string pyval).

Lemma mapM_py_len_const (values : list pyval) m :
  Forall (λ x, py_len x = Ok m) values →
  mapM py_len values = Ok (replicate (length values) m).
Proof.
  induction 1 as [|x values Hx _ IH]; [done|].
  cbn [mapM]. rewrite Hx, IH. done.
Qed.

Lemma elements_replicate (m k : nat) :
  elements (list_to_set (replicate (S k) m) : gset nat) = [m].
Proof.
  assert ((list_to_set (replicate (S k) m) : gset nat) = {[m]}) as ->.
  { induction k as [|k IH]; cbn.
    - apply (right_id_L ∅ (∪)).
    - cbn in IH. rewrite IH. apply (idemp_L (∪)). }
  apply elements_singleton.
Qed.

(** In batch mode an entry of sequences of one common length passes
    the shape check, whatever batch size was configured. *)
Lemma check_mode_common_length td entry v m :
  batch_mode td = true →
  first_value entry = Ok v → has_iter v = true →
  Forall (λ x, py_len x = Ok m) (dict_values entry) →
  check_mode td entry = Ok true.
Proof.
  intros Hmode Hfirst Hiter Hlens. unfold check_mode.
  rewrite Hmode, Hfirst. cbn. rewrite Hiter. cbn.
  rewrite (mapM_py_len_const _ m) by done. cbn.
  unfold first_value in Hfirst.
  destruct (dict_values entry) as [|x values]; [done|].
  cbn [length]. by rewrite elements_replicate.
Qed.

(** In batch mode an entry with sequences of two different lengths is
    refused. *)
Lemma check_mode_unequal_lengths td entry v lens (i j : nat) a b :
  batch_mode td = true →
  first_value entry = Ok v → has_iter v = true →
  mapM py_len (dict_values entry) = Ok lens →
  lens !! i = Some a → lens !! j = Some b → a ≠ b →
  check_mode td entry = Raise (ValueError BatchSizeDiffers).
Proof.
  intros Hmode Hfirst Hiter Hlens Ha Hb Hab. unfold check_mode.
  rewrite Hmode, Hfirst. cbn. rewrite Hiter. cbn. rewrite Hlens. cbn.
  rewrite bool_decide_eq_false_2; [done|].
  intros Hone. change (size (list_to_set lens : gset nat) = 1%nat) in Hone.
  apply size_1_elem_of in Hone as [x Hx].
  apply list_elem_of_lookup_2 in Ha, Hb.
  assert (a ∈ (list_to_set lens : gset nat)) as Ha' by by apply elem_of_list_to_set.
  assert (b ∈ (list_to_set lens : gset nat)) as Hb' by by apply elem_of_list_to_set.
  rewrite Hx in Ha', Hb'. apply elem_of_singleton in Ha', Hb'. congruence.
Qed.

(** A result set without rows contributes no field and raises nothing. *)
Lemma lookup_fields_no_rows cf fns : lookup_fields cf fns [] = Ok [].
Proof. done. Qed.
End BatchSizeCheck.


(** ** The order of the statement cache *)

Section CacheOrder.
Context {PF : Platform} {SV : Services}.

Lemma dict_set_fresh {K V} `{EqDecision K} (d : dict K V) k v :
  k ∉ dict_keys d → dict_set k v d = d ++ [(k, v)].
Proof.
  unfold dict_keys. induction d as [|[k0 v0] d IH]; [done|].
  cbn. intros Hk. apply not_elem_of_cons in Hk as [Hne Hk].
  rewrite decide_False by done. by rewrite IH.
Qed.

Lemma rewrite_loop_text pk_names (keys keys' : gset string) q :
  (rewrite_loop pk_names (keys, q)).2 = (rewrite_loop pk_names (keys', q)).2.
Proof.
  unfold rewrite_loop. revert keys keys' q.
  induction pk_names as [|n ns IH]; intros keys keys' q; [done|].
  cbn [foldl]. unfold rewrite_step at 2 4. cbn [fst snd]. apply IH.
Qed.

(** In single mode the cache lists the statements in the order of the
    metadata answer, when their indices are distinct. *)
Lemma compile_statements_listing listing (cache : dict Z Stmt) keys :
  NoDup (dict_keys cache ++ map prepared_statement_index listing) →
  ∃ keys', compile_statements false listing cache keys
           = Ok (cache ++ map compiled_single listing, keys').
Proof.
  revert cache keys. induction listing as [|ps listing IH]; intros cache keys Hnd.
  - exists keys. cbn. by rewrite app_nil_r.
  - cbn [compile_statements].
    destruct (rewrite_loop (pk_names_of ps) (keys, replace_newlines (query_online ps)))
      as [keys1 text] eqn:Hloop.
    assert (text = rewrite_query (query_online ps) (pk_names_of ps)) as ->.
    { unfold rewrite_query. rewrite (rewrite_loop_text _ ∅ keys), Hloop. done. }
    cbn [mbind Res_bind]. cbn [map] in Hnd.
    rewrite dict_set_fresh.
    + destruct (IH (cache ++ [compiled_single ps]) keys1) as [keys' Hrec].
      { unfold dict_keys in *. rewrite fmap_app, <-app_assoc. exact Hnd. }
      exists keys'. unfold compiled_single at 1 in Hrec. rewrite Hrec.
      by rewrite <-app_assoc.
    + apply NoDup_app in Hnd as (_ & Hdis & _). intros Hin.
      apply (Hdis _ Hin). left.
Qed.

(** After a successful single-mode initialisation the cache is in the
    order of the metadata answer. *)
Lemma init_cache_in_listing_order td external online_conn mysql_engine listing fns :
  get_online_connector = Ok online_conn →
  create_mysql_engine online_conn external = Ok mysql_engine →
  get_serving_prepared_statement (reset_serving td) false = Ok listing →
  get_td_transformation_fn (reset_serving td) = Ok fns →
  NoDup (map prepared_statement_index listing) →
  prepared_statements (init_prepared_statement td None external).1
    = Some (map compiled_single listing).
Proof.
  intros Hconn Heng Hlist Hfns Hnd. unfold init_prepared_statement.
  rewrite Hconn, Heng, Hlist.
  destruct (compile_statements_listing listing [] ∅ Hnd) as [keys' ->].
  by rewrite Hfns.
Qed.
End CacheOrder.

(** ** The properties on the sample store *)

Module SampleFacts.
Import Sample.

Example sample_rewrite :
  rewrite_query q1 ["id"%string] = "SELECT c, d FROM fg1 WHERE id = :id"%string.
Proof. reflexivity. Qed.

Example sample_rewrite_sorted :
  (compile_statements (SV := services [ps2]) false [ps2] [] ∅)
    = Ok ([(0, s2)], {["id"%string; "ts"%string]}).
Proof. vm_compute. reflexivity. Qed.

Lemma single_vector_in_cache_order_witness :
  get_serving_vector (SV := services [ps0; ps1])
    (initialised [ps0; ps1] None) (entry_of (PInt 1)) false
  = (initialised [ps0; ps1] None, [0; 1],
     Ok (Vector [PInt 10; PInt 22; PInt 12; PInt 13])).
Proof.
  apply (single_vector_in_cache_order (SV := services [ps0; ps1])
           (initialised [ps0; ps1] None) (entry_of (PInt 1)) false
           ("onlinefs"%string, false) s0 s1).
  - reflexivity.
  - reflexivity.
  - reflexivity.
  - vm_compute. reflexivity.
  - eexists. split; reflexivity.
  - eexists. split; reflexivity.
Defined.

(** C1, counterexample.  The metadata service lists lookup 1 before
    lookup 0.  The lookups at indices 0 and 1 contribute [10, 22] and
    [12, 13]; the statements are sent as 1 then 0 and the vector is
    [12, 13, 10, 22], the order of the dictionary, not [10, 22, 12, 13]. *)
Lemma cache_order_not_index_order :
  (prepared_statements (initialised [ps1; ps0] None) ≫= dict_get 0) = Some s0 ∧
  (prepared_statements (initialised [ps1; ps0] None) ≫= dict_get 1) = Some s1 ∧
  answers (SV := services [ps1; ps0]) ("onlinefs"%string, false)
    (entry_of (PInt 1))
    (lookup_fields (SV := services [ps1; ps0])
       (get_complex_feature_schemas (SV := services [ps1; ps0])
          (initialised [ps1; ps0] None))
       (transformation_functions (initialised [ps1; ps0] None)))
    (0, s0) [PInt 10; PInt 22] ∧
  answers (SV := services [ps1; ps0]) ("onlinefs"%string, false)
    (entry_of (PInt 1))
    (lookup_fields (SV := services [ps1; ps0])
       (get_complex_feature_schemas (SV := services [ps1; ps0])
          (initialised [ps1; ps0] None))
       (transformation_functions (initialised [ps1; ps0] None)))
    (1, s1) [PInt 12; PInt 13] ∧
  get_serving_vector (SV := services [ps1; ps0])
    (initialised [ps1; ps0] None) (entry_of (PInt 1)) false
  = (initialised [ps1; ps0] None, [1; 0],
     Ok (Vector [PInt 12; PInt 13; PInt 10; PInt 22])) ∧
  (get_serving_vector (SV := services [ps1; ps0])
     (initialised [ps1; ps0] None) (entry_of (PInt 1)) false).2
  ≠ Ok (Vector [PInt 10; PInt 22; PInt 12; PInt 13]).
Proof.
  repeat split; try reflexivity; try discriminate.
  - eexists. split; reflexivity.
  - eexists. split; reflexivity.
Qed.

Lemma batch_vectors_stitched_witness :
  get_serving_vector (SV := services [ps0; ps1])
    (initialised [ps0; ps1] (Some 3))
    (entry_of (PList [PInt 1; PInt 2; PInt 3])) false
  = (initialised [ps0; ps1] (Some 3), [0; 1],
     Ok (BatchVectors [[PInt 10; PInt 22; PInt 12; PInt 13];
                       [PInt 20; PInt 42; PInt 22; PInt 23];
                       [PInt 30; PInt 62; PInt 32; PInt 33]])).
Proof.
  apply (batch_vectors_stitched (SV := services [ps0; ps1])
           (initialised [ps0; ps1] (Some 3))
           (entry_of (PList [PInt 1; PInt 2; PInt 3])) false
           ("onlinefs"%string, false)
           [(0, (s0.1, ["id"%string])); (1, (s1.1, ["id"%string]))]
           [[[PInt 10; PInt 22]; [PInt 20; PInt 42]; [PInt 30; PInt 62]];
            [[PInt 12; PInt 13]; [PInt 22; PInt 23]; [PInt 32; PInt 33]]]
           3%nat).
  - reflexivity.
  - discriminate.
  - reflexivity.
  - reflexivity.
  - vm_compute. reflexivity.
  - vm_compute. reflexivity.
  - repeat constructor; eexists; split; reflexivity.
  - repeat constructor.
Defined.

(** C2, counterexample.  Batch size 3, the metadata service lists
    lookup 1 before lookup 0, both lookups return 3 rows.  Vector [i]
    starts with the fields of lookup 1, not with those of lookup 0. *)
Lemma batch_order_not_index_order :
  serving_batch_size (initialised [ps1; ps0] (Some 3)) = Some 3 ∧
  batch_fields (SV := services [ps1; ps0]) []
    (transformation_functions (initialised [ps1; ps0] (Some 3)))
    (select fg0 (entry_of (PList [PInt 1; PInt 2; PInt 3])))
  = Ok [[PInt 10; PInt 22]; [PInt 20; PInt 42]; [PInt 30; PInt 62]] ∧
  batch_fields (SV := services [ps1; ps0]) []
    (transformation_functions (initialised [ps1; ps0] (Some 3)))
    (select fg1 (entry_of (PList [PInt 1; PInt 2; PInt 3])))
  = Ok [[PInt 12; PInt 13]; [PInt 22; PInt 23]; [PInt 32; PInt 33]] ∧
  get_serving_vector (SV := services [ps1; ps0])
    (initialised [ps1; ps0] (Some 3))
    (entry_of (PList [PInt 1; PInt 2; PInt 3])) false
  = (initialised [ps1; ps0] (Some 3), [1; 0],
     Ok (BatchVectors [[PInt 12; PInt 13; PInt 10; PInt 22];
                       [PInt 22; PInt 23; PInt 20; PInt 42];
                       [PInt 32; PInt 33; PInt 30; PInt 62]])) ∧
  (get_serving_vector (SV := services [ps1; ps0])
     (initialised [ps1; ps0] (Some 3))
     (entry_of (PList [PInt 1; PInt 2; PInt 3])) false).2
  ≠ Ok (BatchVectors [[PInt 10; PInt 22; PInt 12; PInt 13];
                      [PInt 20; PInt 42; PInt 22; PInt 23];
                      [PInt 30; PInt 62; PInt 32; PInt 33]]).
Proof. repeat split; try reflexivity; discriminate. Qed.

(** C3, the code at the failing input.  Single mode, [fg1] has no row
    for [id = 4]: no exception, and the vector holds the fields of
    [fg0] alone. *)
Theorem empty_result_gives_short_vector :
  execute_fetchall (Services := services [ps0; ps1])
    ("onlinefs"%string, false) s1 (entry_of (PInt 4)) = Ok [] ∧
  get_serving_vector (SV := services [ps0; ps1])
    (initialised [ps0; ps1] None) (entry_of (PInt 4)) false
  = (initialised [ps0; ps1] None, [0; 1], Ok (Vector [PInt 40; PInt 82])).
Proof. split; reflexivity. Qed.


(** C5, the code at the failing input.  Initialised for batches of 3,
    called with a batch of 2 ids: the shape check passes, both
    statements are sent and two vectors come back. *)
Theorem batch_size_is_not_compared :
  serving_batch_size (initialised [ps0; ps1] (Some 3)) = Some 3 ∧
  check_mode (initialised [ps0; ps1] (Some 3))
    (entry_of (PList [PInt 1; PInt 2])) = Ok true ∧
  get_serving_vector (SV := services [ps0; ps1])
    (initialised [ps0; ps1] (Some 3)) (entry_of (PList [PInt 1; PInt 2])) false
  = (initialised [ps0; ps1] (Some 3), [0; 1],
     Ok (BatchVectors [[PInt 10; PInt 22; PInt 12; PInt 13];
                       [PInt 20; PInt 42; PInt 22; PInt 23]])).
Proof. repeat split; vm_compute; reflexivity. Qed.

Lemma mode_check_on_first_value_witness :
  get_serving_vector (SV := services [ps0; ps1])
    (initialised [ps0; ps1] None) (entry_of (PList [PInt 1; PInt 2])) false
  = (initialised [ps0; ps1] None, [], Raise (ValueError EntryExpectedSingle)) ∧
  get_serving_vector (SV := services [ps0; ps1])
    (initialised [ps0; ps1] (Some 3)) (entry_of (PInt 1)) false
  = (initialised [ps0; ps1] (Some 3), [], Raise (ValueError EntryExpectedList)).
Proof.
  split.
  - apply (proj1 (mode_check_on_first_value (SV := services [ps0; ps1])
                    (initialised [ps0; ps1] None)
                    (entry_of (PList [PInt 1; PInt 2])) false
                    [(0, s0); (1, s1)] (PList [PInt 1; PInt 2])
                    eq_refl eq_refl)); reflexivity.
  - apply (proj2 (mode_check_on_first_value (SV := services [ps0; ps1])
                    (initialised [ps0; ps1] (Some 3))
                    (entry_of (PInt 1)) false
                    [(0, (s0.1, ["id"%string])); (1, (s1.1, ["id"%string]))]
                    (PInt 1) eq_refl eq_refl)); reflexivity.
Defined.

(** C6, counterexample.  Single mode, serving keys [id] and [ts]; the
    entry gives a list for [ts].  Its first value is a number, so
    nothing is raised and the statement is sent. *)
Lemma sequence_after_first_value_accepted :
  serving_batch_size (initialised [ps2] None) = None ∧
  serving_keys (initialised [ps2] None) = Some {["id"%string; "ts"%string]} ∧
  get_serving_vector (SV := services [ps2]) (initialised [ps2] None)
    [("id"%string, PInt 1); ("ts"%string, PList [PInt 7])] false
  = (initialised [ps2] None, [0], Ok (Vector [PInt 10; PInt 22])).
Proof. repeat split; vm_compute; reflexivity. Qed.

Lemma key_mismatch_before_queries_witness :
  get_serving_vector (SV := services [ps0; ps1])
    (initialised [ps0; ps1] None) [("ts"%string, PInt 7)] false
  = (initialised [ps0; ps1] None, [], Raise KeyMismatch).
Proof.
  apply (key_mismatch_before_queries (SV := services [ps0; ps1])
           (initialised [ps0; ps1] None) [("ts"%string, PInt 7)] false
           [(0, s0); (1, s1)] false).
  - reflexivity.
  - reflexivity.
  - intros Heq. apply keys_match_true in Heq. vm_compute in Heq. discriminate.
Defined.

(** C7, counterexample.  Single mode, serving keys [id]; the entry has
    the keys [id] and [ts], a strict superset, and a list for [id].
    The shape check comes first: the mode mismatch is raised, not the
    key mismatch. *)
Lemma superset_entry_raises_mode_mismatch :
  serving_keys (initialised [ps0] None) = Some {["id"%string]} ∧
  keys_match (initialised [ps0] None)
    [("id"%string, PList [PInt 1]); ("ts"%string, PInt 7)] = false ∧
  get_serving_vector (SV := services [ps0]) (initialised [ps0] None)
    [("id"%string, PList [PInt 1]); ("ts"%string, PInt 7)] false
  = (initialised [ps0] None, [], Raise (ValueError EntryExpectedSingle)) ∧
  (get_serving_vector (SV := services [ps0]) (initialised [ps0] None)
     [("id"%string, PList [PInt 1]); ("ts"%string, PInt 7)] false).2
  ≠ Raise KeyMismatch.
Proof. repeat split; try (vm_compute; reflexivity). discriminate. Qed.

Lemma init_forgets_serving_state_witness :
  init_prepared_statement (SV := services [ps0; ps1])
    (initialised [ps0; ps1] (Some 3)) None false
  = init_prepared_statement (SV := services [ps0; ps1]) fresh None false ∧
  serving_batch_size
    (init_prepared_statement (SV := services [ps0; ps1])
       (initialised [ps0; ps1] (Some 3)) None false).1
  = requested_mode None.
Proof.
  apply (init_forgets_serving_state (SV := services [ps0; ps1])
           (initialised [ps0; ps1] (Some 3)) fresh None false).
  split; reflexivity.
Defined.

Lemma apply_transformation_frame_witness :
  dict_keys (_apply_transformation doubling sample_row) = dict_keys sample_row ∧
  ∀ feature_name,
    dict_get feature_name (_apply_transformation doubling sample_row) =
      match dict_get feature_name sample_row,
            dict_get feature_name doubling with
      | Some v, Some tf => Some (transformation_fn tf v)
      | Some v, None => Some v
      | None, _ => None
      end.
Proof.
  apply (apply_transformation_frame
           [("b"%string, {| transformation_fn := double |});
            ("z"%string, {| transformation_fn := double |})]
           [("a"%string, PInt 10); ("b"%string, PInt 11)]).
  unfold dict_wf. apply (bool_decide_unpack _). vm_compute. exact I.
Defined.


(** The last row of that result set alone goes through. *)
Example mixed_last_row_alone :
  process_row (SV := MoreSamples.mixed_services)
    (get_complex_feature_schemas (SV := MoreSamples.mixed_services)
       MoreSamples.mixed)
    [] [("c"%string, PBytes "ok")]
  = Ok [("c"%string, PStr "ok")].
Proof. reflexivity. Qed.
End SampleFacts.

(** * Further properties of the serving path *)

(** ** Parameters are ordered by their declared index *)

Section ParameterOrder.
Implicit Types (p q : PreparedStatementParameter)
(l : list PreparedStatementParameter).

Lemma insert_by_index_perm p l : insert_by_index p l ≡ₚ p :: l.
Proof.
induction l as [|q l IH]; [done|]. cbn.
destruct (psp_index p <=? psp_index q); [done|].
rewrite IH. apply Permutation_swap.
Qed.

Lemma sorted_by_index_perm l : sorted_by_index l ≡ₚ l.
Proof.
induction l as [|p l IH]; [done|]. cbn.
by rewrite insert_by_index_perm, IH.
Qed.

Lemma insert_by_index_sorted p l :
StronglySorted index_le l → StronglySorted index_le (insert_by_index p l).
Proof.
induction 1 as [|q l Hl IH Hq]; cbn.
- repeat constructor.
- destruct (Z.leb_spec (psp_index p) (psp_index q)) as [Hle|Hlt].
+ constructor; [by constructor|]. constructor; [done|].
  eapply Forall_impl; [exact Hq|]. unfold index_le. intros r Hr. lia.
+ constructor; [done|]. rewrite insert_by_index_perm.
  constructor; [|done]. unfold index_le. lia.
Qed.

Lemma sorted_by_index_sorted l : StronglySorted index_le (sorted_by_index l).
Proof.
induction l as [|p l IH]; cbn; [constructor|]. by apply insert_by_index_sorted.
Qed.

(** X1.  The bind names of a statement follow the declared parameter
  indices, not the position of the parameters in the metadata answer:
  two parameter lists with the same parameters and distinct indices
  give the same names in the same order. *)
Theorem pk_names_ignore_listing_order ps ps' :
prepared_statement_parameters ps ≡ₚ prepared_statement_parameters ps' →
NoDup (map psp_index (prepared_statement_parameters ps)) →
pk_names_of ps = pk_names_of ps' ∧
StronglySorted index_le (sorted_by_index (prepared_statement_parameters ps)).
Proof.
intros Hperm Hnd. split; [|apply sorted_by_index_sorted].
unfold pk_names_of. f_equal.
apply (StronglySorted_unique_strong index_le);
[|apply sorted_by_index_sorted..|by rewrite !sorted_by_index_perm].
intros x1 x2 Hx1 Hx2 H12 H21.
rewrite sorted_by_index_perm in Hx1.
rewrite sorted_by_index_perm, <-Hperm in Hx2.
unfold index_le in *. assert (psp_index x1 = psp_index x2) as Heq by lia.
clear H12 H21 Hperm.
induction (prepared_statement_parameters ps) as [|p l IH]; [by inversion Hx1|].
cbn in Hnd. apply NoDup_cons in Hnd as [Hp Hnd].
apply elem_of_cons in Hx1 as [->|Hx1], Hx2 as [->|Hx2]; auto.
- destruct Hp. rewrite Heq. by apply list_elem_of_fmap_2.
- destruct Hp. rewrite <-Heq. by apply list_elem_of_fmap_2.
Qed.
End ParameterOrder.

(** ** Initialisation *)

Section Initialisation.
Context {PF : Platform} {SV : Services}.
Implicit Types (td : TrainingDataset).

Lemma init_unfold td batch_size external :
init_prepared_statement td batch_size external =
  let td0 := reset_for td batch_size in
  match get_online_connector with
  | Raise e => (td0, Raise e)
  | Ok online_conn =>
  match create_mysql_engine online_conn external with
  | Raise e => (td0, Raise e)
  | Ok mysql_engine =>
  match get_serving_prepared_statement td0 (is_batch batch_size) with
  | Raise e => (td0, Raise e)
  | Ok statements =>
  match compile_statements (is_batch batch_size) statements [] ∅ with
  | Raise e => (td0, Raise e)
  | Ok (cache, keys) =>
  match get_td_transformation_fn td0 with
  | Raise e => (td0, Raise e)
  | Ok fns => (publish_serving fns mysql_engine cache keys td0, Ok ())
  end end end end end.
Proof.
unfold init_prepared_statement, reset_for, requested_mode, is_batch.
destruct batch_size as [n|]; [|done]. by destruct (bool_decide (1 < n)).
Qed.

Lemma reset_for_serving td batch_size :
prepared_statements (reset_for td batch_size) = None ∧
prepared_statement_engine (reset_for td batch_size) = None ∧
serving_keys (reset_for td batch_size) = None.
Proof. unfold reset_for. by destruct (requested_mode batch_size). Qed.

(** X2.  [init_prepared_statement] publishes cache, engine and serving
  keys together or not at all: after a call that raised, the three
  are unset; after a call that returned, the three are set. *)
Theorem init_all_or_nothing td batch_size external :
match (init_prepared_statement td batch_size external).2 with
| Ok _ =>
    is_Some (prepared_statements
               (init_prepared_statement td batch_size external).1) ∧
    is_Some (prepared_statement_engine
               (init_prepared_statement td batch_size external).1) ∧
    is_Some (serving_keys
               (init_prepared_statement td batch_size external).1)
| Raise _ =>
    prepared_statements
      (init_prepared_statement td batch_size external).1 = None ∧
    prepared_statement_engine
      (init_prepared_statement td batch_size external).1 = None ∧
    serving_keys (init_prepared_statement td batch_size external).1 = None
end.
Proof.
rewrite init_unfold. cbv zeta.
pose proof (reset_for_serving td batch_size) as Hreset.
destruct get_online_connector as [conn|e]; [|done].
destruct (create_mysql_engine conn external) as [eng|e]; [|done].
destruct (get_serving_prepared_statement _ _) as [listing|e]; [|done].
destruct (compile_statements _ _ _ _) as [[cache keys]|e]; [|done].
destruct (get_td_transformation_fn _) as [fns|e]; [|done].
cbn. eauto.
Qed.

(** X3.  A batch size of at most 1 is single mode: the call leaves the
  same dataset and outcome as the call without a batch size. *)
Theorem init_small_batch_is_single td n external :
n <= 1 →
init_prepared_statement td (Some n) external
  = init_prepared_statement td None external.
Proof.
intros Hn. rewrite !init_unfold. unfold reset_for, requested_mode, is_batch.
by rewrite bool_decide_eq_false_2 by lia.
Qed.

Lemma parameter_names_cons ps listing :
parameter_names (ps :: listing)
  = list_to_set (pk_names_of ps) ∪ parameter_names listing.
Proof.
unfold parameter_names, pk_names_of. cbn [map concat].
rewrite list_to_set_app_L. f_equal.
apply set_eq. intros x. rewrite !elem_of_list_to_set.
by rewrite sorted_by_index_perm.
Qed.

Lemma compile_statements_keys batch listing (cache cache' : dict Z Stmt)
  (keys keys' : gset string) :
compile_statements batch listing cache keys = Ok (cache', keys') →
keys' = parameter_names listing ∪ keys.
Proof.
revert cache keys. induction listing as [|ps listing IH]; intros cache keys.
- intros [= _ <-]. unfold parameter_names. cbn. by rewrite (left_id_L ∅ (∪)).
- cbn [compile_statements].
pose proof (rewrite_loop_keys (pk_names_of ps) keys
              (replace_newlines (query_online ps))) as Hk.
destruct (rewrite_loop _ _) as [keys1 text]. cbn in Hk. subst keys1.
destruct (if batch then _ else _) as [stmt|e]; [|done]. cbn [mbind Res_bind].
intros Hrec. apply IH in Hrec as ->.
rewrite parameter_names_cons.
apply set_eq. intros x. rewrite !elem_of_union. tauto.
Qed.

(** X4.  After an initialisation that returned, the serving keys are
  the names of all parameters of all statements of the metadata
  answer, in either mode. *)
Theorem init_serving_keys td batch_size external td' listing :
init_prepared_statement td batch_size external = (td', Ok ()) →
get_serving_prepared_statement (reset_for td batch_size) (is_batch batch_size)
  = Ok listing →
serving_keys td' = Some (parameter_names listing).
Proof.
rewrite init_unfold. cbv zeta. intros Hinit Hlist. rewrite Hlist in Hinit.
destruct get_online_connector as [conn|e]; [|done].
destruct (create_mysql_engine conn external) as [eng|e]; [|done].
destruct (compile_statements _ _ _ _) as [[cache keys]|e] eqn:Hc; [|done].
destruct (get_td_transformation_fn _) as [fns|e]; [|done].
injection Hinit as <-. cbn. f_equal.
apply compile_statements_keys in Hc. by rewrite Hc, (right_id_L ∅ (∪)).
Qed.
End Initialisation.

(** ** The statement cache *)

Section CacheFacts.
Context {PF : Platform} {SV : Services}.
Implicit Types (td : TrainingDataset).

Lemma dict_keys_set {K V} `{EqDecision K} (d : dict K V) k v k' :
k' ∈ dict_keys (dict_set k v d) ↔ k' = k ∨ k' ∈ dict_keys d.
Proof.
unfold dict_keys. induction d as [|[k0 v0] d IH]; cbn.
- rewrite list_elem_of_singleton, elem_of_nil. tauto.
- destruct (decide (k = k0)) as [->|Hne]; cbn.
+ rewrite !elem_of_cons. tauto.
+ rewrite !elem_of_cons, IH. tauto.
Qed.

Lemma dict_set_wf {K V} `{EqDecision K} (d : dict K V) k v :
dict_wf d → dict_wf (dict_set k v d).
Proof.
unfold dict_wf. induction d as [|[k0 v0] d IH]; cbn.
- intros _. apply NoDup_singleton.
- intros Hnd. apply NoDup_cons in Hnd as [Hk0 Hnd].
destruct (decide (k = k0)) as [->|Hne]; cbn.
+ by apply NoDup_cons.
+ apply NoDup_cons. split; [|by apply IH].
  intros Hin. apply (dict_keys_set d k v k0) in Hin as [->|Hin]; done.
Qed.

Lemma compile_statements_cache batch listing (cache cache' : dict Z Stmt)
  (keys keys' : gset string) :
compile_statements batch listing cache keys = Ok (cache', keys') →
dict_wf cache →
dict_wf cache' ∧
∀ i, i ∈ dict_keys cache' ↔
     i ∈ dict_keys cache ∨ i ∈ map prepared_statement_index listing.
Proof.
revert cache keys. induction listing as [|ps listing IH]; intros cache keys.
- intros [= <- _] Hwf. split; [done|]. intros i. cbn. rewrite elem_of_nil. tauto.
- cbn [compile_statements].
destruct (rewrite_loop _ _) as [keys1 text].
destruct (if batch then _ else _) as [stmt|e]; [|done]. cbn [mbind Res_bind].
intros Hrec Hwf. apply IH in Hrec as [Hwf' Hkeys]; [|by apply dict_set_wf].
split; [done|]. intros i. rewrite Hkeys, dict_keys_set. cbn [map].
rewrite elem_of_cons. tauto.
Qed.

(** X5.  After an initialisation that returned, the statement cache has
  one statement for each lookup index of the metadata answer and
  nothing else: its indices are pairwise distinct and are those of the
  answer, a repeated index being kept once. *)
Theorem init_cache_indices td batch_size external td' listing :
init_prepared_statement td batch_size external = (td', Ok ()) →
get_serving_prepared_statement (reset_for td batch_size) (is_batch batch_size)
  = Ok listing →
∃ cache : dict Z Stmt,
  prepared_statements td' = Some cache ∧ dict_wf cache ∧
  ∀ i, i ∈ dict_keys cache ↔ i ∈ map prepared_statement_index listing.
Proof.
rewrite init_unfold. cbv zeta. intros Hinit Hlist. rewrite Hlist in Hinit.
destruct get_online_connector as [conn|e]; [|done].
destruct (create_mysql_engine conn external) as [eng|e]; [|done].
destruct (compile_statements _ _ _ _) as [[cache keys]|e] eqn:Hc; [|done].
destruct (get_td_transformation_fn _) as [fns|e]; [|done].
injection Hinit as <-. exists cache. split; [done|].
apply compile_statements_cache in Hc as [Hwf Hkeys]; [|apply NoDup_nil_2].
split; [done|]. intros i. rewrite Hkeys. unfold dict_keys. cbn.
rewrite elem_of_nil. tauto.
Qed.

Lemma init_ok_cache td batch_size external td' :
init_prepared_statement td batch_size external = (td', Ok ()) →
is_Some (prepared_statements td').
Proof.
rewrite init_unfold. cbv zeta.
destruct get_online_connector as [conn|e]; [|done].
destruct (create_mysql_engine conn external) as [eng|e]; [|done].
destruct (get_serving_prepared_statement _ _) as [listing|e]; [|done].
destruct (compile_statements _ _ _ _) as [[cache keys]|e]; [|done].
destruct (get_td_transformation_fn _) as [fns|e]; [|done].
intros [= <-]. cbn. eauto.
Qed.

Lemma has_iter_len v : has_iter v = true → ∃ n, py_len v = Ok n.
Proof. destruct v; try done; cbn; eauto. Qed.

(** X6.  On a dataset that was never initialised, [get_serving_vector]
  is [init_prepared_statement] followed by [get_serving_vector] on the
  dataset it leaves, with the batch size read off the first value of
  the entry (its length when it is iterable, none otherwise); when the
  initialisation raises, its error is raised and nothing is sent. *)
Theorem lazy_init_is_init td entry external v :
prepared_statements td = None →
first_value entry = Ok v →
get_serving_vector td entry external =
  match init_prepared_statement td (entry_batch_size v) external with
  | (td', Ok _) => get_serving_vector td' entry external
  | (td', Raise e) => (td', [], Raise e)
  end.
Proof.
intros Hps Hfirst. unfold get_serving_vector at 1. unfold auto_init.
rewrite Hps, Hfirst. unfold entry_batch_size.
destruct (has_iter v) eqn:Hiter.
- destruct (has_iter_len v Hiter) as [n ->].
destruct (init_prepared_statement td (Some (Z.of_nat n)) external)
  as [td' [[]|e]] eqn:Hinit; [|done].
destruct (init_ok_cache _ _ _ _ Hinit) as [cache Hcache].
unfold get_serving_vector, auto_init. by rewrite Hcache.
- destruct (init_prepared_statement td None external)
  as [td' [[]|e]] eqn:Hinit; [|done].
destruct (init_ok_cache _ _ _ _ Hinit) as [cache Hcache].
unfold get_serving_vector, auto_init. by rewrite Hcache.
Qed.

(** X7.  An empty entry raises [IndexError] on every dataset,
  initialised or not; nothing is sent and the dataset is left as it
  was. *)
Theorem empty_entry_raises_index_error td external :
get_serving_vector td [] external = (td, [], Raise IndexError).
Proof.
unfold get_serving_vector, auto_init, check_mode.
destruct (prepared_statements td); [|done]. by destruct (batch_mode td).
Qed.

Lemma mapM_py_len_raise (values : list pyval) x :
x ∈ values → has_iter x = false → mapM py_len values = Raise TypeError.
Proof.
intros Hin Hx. induction values as [|y values IH]; [by inversion Hin|].
cbn [mapM]. destruct (py_len y) as [n|e] eqn:Hy.
- apply elem_of_cons in Hin as [->|Hin].
+ by destruct y.
+ cbn. by rewrite IH.
- destruct y; cbn in Hy; by simplify_eq.
Qed.

(** X8.  In batch mode the lengths of all values are taken before any
  comparison: an entry whose first value is iterable and one of whose
  values is a number or [None] raises [TypeError], not the mode
  mismatch, and nothing is sent. *)
Theorem scalar_among_batch_values td entry external statements v x :
prepared_statements td = Some statements →
batch_mode td = true →
first_value entry = Ok v → has_iter v = true →
x ∈ dict_values entry → has_iter x = false →
get_serving_vector td entry external = (td, [], Raise TypeError).
Proof.
intros Hps Hmode Hfirst Hv Hin Hx.
unfold get_serving_vector, auto_init, check_mode.
rewrite Hps, Hmode, Hfirst. cbn. rewrite Hv. cbn.
by rewrite (mapM_py_len_raise _ x).
Qed.
End CacheFacts.

(** ** What is sent to the online store *)

Section Sending.
Context {PF : Platform} {SV : Services}.
Implicit Types (td : TrainingDataset) (entry : dict string pyval)
(statements : dict Z Stmt).

Lemma statements_loop_sent eng cf fns entry batch statements trace sv bd :
∃ sent,
  (statements_loop eng cf fns entry batch statements trace sv bd).1
    = trace ++ sent ∧
  sent `prefix_of` statements.*1 ∧
  (is_ok (statements_loop eng cf fns entry batch statements trace sv bd).2
     = true → sent = statements.*1).
Proof.
revert trace sv bd.
induction statements as [|[idx stmt] statements IH]; intros trace sv bd.
- exists []. cbn. by rewrite app_nil_r.
- cbn [statements_loop]. destruct eng as [mysql_conn|].
2:{ exists []. cbn. rewrite app_nil_r. split; [done|].
    split; [apply prefix_nil|done]. }
destruct (execute_fetchall mysql_conn stmt entry) as [rows|e].
2:{ exists [idx]. cbn. split; [done|].
    split; [apply prefix_cons, prefix_nil|done]. }
destruct (rows_loop cf fns batch rows 0 [] bd) as [[rd bd']|e].
2:{ exists [idx]. cbn. split; [done|].
    split; [apply prefix_cons, prefix_nil|done]. }
destruct (IH (trace ++ [idx])
            (if batch then sv else sv ++ dict_values rd) bd')
  as (sent & Htrace & Hprefix & Hall).
exists (idx :: sent). rewrite Htrace, <-app_assoc. split; [done|].
split; [by apply prefix_cons|]. intros Hok. cbn. f_equal. by apply Hall.
Qed.

(** X9.  On an initialised dataset [get_serving_vector] leaves the
  dataset as it was and sends the cached statements in the order of
  the cache, each at most once and none skipped: what it sent is a
  prefix of the cache's indices, and all of them when it returned a
  result. *)
Theorem statements_sent_in_cache_order td entry external statements :
prepared_statements td = Some statements →
(get_serving_vector td entry external).1.1 = td ∧
(get_serving_vector td entry external).1.2 `prefix_of` dict_keys statements ∧
(is_ok (get_serving_vector td entry external).2 = true →
 (get_serving_vector td entry external).1.2 = dict_keys statements).
Proof.
intros Hps. unfold get_serving_vector, auto_init. rewrite Hps.
destruct (check_mode td entry) as [batch|e];
[|cbn; split; [done|split; [apply prefix_nil|done]]].
destruct (keys_match td entry);
[|cbn; split; [done|split; [apply prefix_nil|done]]].
cbn [negb]. unfold assemble. rewrite Hps.
destruct (statements_loop_sent (prepared_statement_engine td)
          (get_complex_feature_schemas td) (transformation_functions td)
          entry batch statements [] [] []) as (sent & Htrace & Hprefix & Hall).
destruct (statements_loop _ _ _ _ _ _ _ _ _) as [trace [[sv bd]|e]];
cbn in *; subst trace; split; try done; split; try done.
Qed.

Lemma lookup_fields_raise cf fns rows e :
lookup_fields cf fns rows = Raise e →
mapM (process_row cf fns) rows = Raise e.
Proof.
unfold lookup_fields. by destruct (mapM _ rows) as [ds|e']; [|intros [= ->]].
Qed.

Lemma batch_fields_raise cf fns rows e :
batch_fields cf fns rows = Raise e →
mapM (process_row cf fns) rows = Raise e.
Proof.
unfold batch_fields. induction rows as [|r rows IH]; [done|].
cbn [mapM]. destruct (process_row cf fns r) as [d|e']; [|by intros [= ->]].
cbn. destruct (mapM (λ row, dict_values <$> process_row cf fns row) rows)
as [t|e']; [done|].
cbn. intros [= ->]. by rewrite IH.
Qed.

(** X10.  The first lookup that fails ends the call, in either mode:
  when the statements before it were answered and it raises at the
  online store, while decoding a complex column of one of its rows,
  or on a row without columns, [get_serving_vector] raises the same
  error, the statements after it are not sent and no vector is
  returned.  (Transformation functions are pure here; one that raises
  is outside this statement.) *)
Theorem first_failure_aborts td entry external eng before idx stmt after e :
prepared_statements td = Some (before ++ (idx, stmt) :: after) →
prepared_statement_engine td = Some eng →
keys_match td entry = true →
(∀ fields_before,
   check_mode td entry = Ok false →
   Forall2 (answers eng entry
              (lookup_fields (get_complex_feature_schemas td)
                 (transformation_functions td))) before fields_before →
   (execute_fetchall eng stmt entry ≫=
      lookup_fields (get_complex_feature_schemas td)
        (transformation_functions td)) = Raise e →
   get_serving_vector td entry external
     = (td, before.*1 ++ [idx], Raise e)) ∧
(∀ tables_before,
   check_mode td entry = Ok true →
   Forall2 (answers eng entry
              (batch_fields (get_complex_feature_schemas td)
                 (transformation_functions td))) before tables_before →
   (execute_fetchall eng stmt entry ≫=
      batch_fields (get_complex_feature_schemas td)
        (transformation_functions td)) = Raise e →
   get_serving_vector td entry external
     = (td, before.*1 ++ [idx], Raise e)).
Proof.
intros Hps Heng Hkeys. split.
- intros fields_before Hmode Hbefore Hfail.
rewrite (get_serving_vector_checked td entry external _ false) by done.
unfold assemble. rewrite Hps, Heng, statements_loop_app.
rewrite (statements_loop_single _ _ _ _ _ fields_before) by done.
cbn [statements_loop app].
destruct (execute_fetchall eng stmt entry) as [rows|e'];
  [|by injection Hfail as ->].
cbn in Hfail. apply lookup_fields_raise in Hfail.
by rewrite rows_loop_single, Hfail.
- intros tables_before Hmode Hbefore Hfail.
rewrite (get_serving_vector_checked td entry external _ true) by done.
unfold assemble. rewrite Hps, Heng, statements_loop_app.
rewrite (statements_loop_batch _ _ _ _ _ tables_before [] [] []) by done.
cbn [statements_loop app].
destruct (execute_fetchall eng stmt entry) as [rows|e'];
  [|by injection Hfail as ->].
cbn in Hfail. apply batch_fields_raise in Hfail.
by rewrite (rows_loop_batch (get_complex_feature_schemas td)
              (transformation_functions td) rows []
              (foldl stitch [] tables_before)), Hfail.
Qed.
End Sending.

(** ** Batches whose lookups return different numbers of rows *)

Section Ragged.
Implicit Types (vs fs : list (list pyval)) (tables : list (list (list pyval))).

Lemma stitch_default vs fs i :
default [] (stitch vs fs !! i) = default [] (vs !! i) ++ default [] (fs !! i).
Proof.
revert fs i. induction vs as [|v vs IH]; intros fs i; [done|].
destruct fs as [|f fs]; [by rewrite app_nil_r|].
destruct i as [|i]; [done|]. exact (IH fs i).
Qed.

Lemma length_stitch_max vs fs :
length (stitch vs fs) = (length vs `max` length fs)%nat.
Proof.
revert fs. induction vs as [|v vs IH]; intros fs; [done|].
destruct fs as [|f fs]; [done|]. cbn. by rewrite IH.
Qed.

Lemma foldl_stitch_default tables vs i :
default [] (foldl stitch vs tables !! i)
  = default [] (vs !! i) ++ batch_vector tables i.
Proof.
revert vs. induction tables as [|t tables IH]; intros vs.
- cbn. by rewrite app_nil_r.
- cbn [foldl]. by rewrite IH, stitch_default, batch_vector_cons, app_assoc.
Qed.

Lemma length_foldl_stitch tables vs :
length (foldl stitch vs tables)
  = (length vs `max` max_list (length <$> tables))%nat.
Proof.
revert vs. induction tables as [|t tables IH]; intros vs.
- cbn. lia.
- cbn [foldl]. rewrite IH, length_stitch_max. cbn. lia.
Qed.

Lemma foldl_stitch_ragged tables :
foldl stitch [] tables
  = map (batch_vector tables) (seq 0 (max_list (length <$> tables))).
Proof.
apply list_eq. intros i. rewrite list_lookup_fmap.
pose proof (length_foldl_stitch tables []) as Hlen. cbn in Hlen.
pose proof (foldl_stitch_default tables [] i) as Hdef. cbn in Hdef.
destruct (decide (i < max_list (length <$> tables))%nat) as [Hi|Hi].
- rewrite lookup_seq_lt by done.
destruct (lookup_lt_is_Some_2 (foldl stitch [] tables) i) as [x Hx];
  [by rewrite Hlen|].
rewrite Hx in Hdef |- *. cbn in Hdef. by rewrite Hdef.
- rewrite lookup_ge_None_2 by lia. by rewrite lookup_seq_ge by lia.
Qed.
End Ragged.

Section RaggedBatch.
Context {PF : Platform} {SV : Services}.

(** X11.  In batch mode the rows are stitched by position alone: for
  any result sets, as many vectors are returned as the longest result
  set has rows, and vector [i] is the concatenation of row [i] of the
  lookups that have a row [i], in cache order; a lookup with fewer
  rows contributes nothing to the later vectors and nothing is
  raised. *)
Theorem batch_vectors_ragged td entry external eng statements tables :
prepared_statements td = Some statements →
prepared_statement_engine td = Some eng →
check_mode td entry = Ok true →
keys_match td entry = true →
Forall2 (answers eng entry
           (batch_fields (get_complex_feature_schemas td)
              (transformation_functions td))) statements tables →
get_serving_vector td entry external =
  (td, statements.*1,
   Ok (BatchVectors
         (map (batch_vector tables)
              (seq 0 (max_list (length <$> tables)))))).
Proof.
intros Hps Heng Hmode Hkeys Hall.
rewrite (batch_mode_assembly td entry external eng statements tables) by done.
by rewrite foldl_stitch_ragged.
Qed.
End RaggedBatch.

(** ** Row decoder *)

Section Decoder.
Context {PF : Platform} {SV : Services}.
Implicit Types (cf : dict string Schema) (row : dict string pyval).

Lemma deserialize_keys cf row row' :
deserialize_complex_features cf row = Ok row' →
dict_keys row' = dict_keys row.
Proof.
revert row. induction cf as [|[k0 s0] cf IH]; intros row; [by intros [= ->]|].
cbn [deserialize_complex_features].
destruct (dict_get k0 row) as [raw|] eqn:Hraw; [|done].
destruct (schema_read s0 raw) as [v|e]; [|done]. cbn.
intros Hrec. rewrite (IH _ Hrec). apply dict_keys_set_present. by rewrite Hraw.
Qed.

(** X12.  When [deserialize_complex_features] returns, the row has the
  same columns in the same order; a column that is not a complex
  feature keeps its value; a complex feature holds what its reader
  decoded from the raw value of the column. *)
Theorem deserialize_frame cf row row' :
dict_wf cf →
deserialize_complex_features cf row = Ok row' →
dict_keys row' = dict_keys row ∧
(∀ k, dict_get k cf = None → dict_get k row' = dict_get k row) ∧
(∀ k s, dict_get k cf = Some s →
   ∃ raw v, dict_get k row = Some raw ∧ schema_read s raw = Ok v ∧
            dict_get k row' = Some v).
Proof.
intros Hwf Hdec. split; [by apply (deserialize_keys cf)|].
revert row Hdec. unfold dict_wf, dict_keys in Hwf.
induction cf as [|[k0 s0] cf IH]; intros row.
- intros [= ->]. split; [done|]. intros k s. done.
- apply NoDup_cons in Hwf as [Hfresh Hwf]. cbn [deserialize_complex_features].
destruct (dict_get k0 row) as [raw|] eqn:Hraw; [|done].
destruct (schema_read s0 raw) as [v|e] eqn:Hread; [|done]. cbn.
intros Hrec. destruct (IH Hwf _ Hrec) as [Hother Hcomplex]. split.
+ intros k. cbn. destruct (decide (k = k0)) as [->|Hne]; [done|].
  intros Hnone. rewrite (Hother k Hnone). by apply dict_get_set_ne.
+ intros k s. cbn. destruct (decide (k = k0)) as [->|Hne].
  * intros [= <-]. exists raw, v. split; [done|]. split; [done|].
    rewrite (Hother k0); [apply dict_get_set_eq|].
    by apply dict_get_None.
  * intros Hs. destruct (Hcomplex k s Hs) as (raw' & v' & Hr & Hv & Hg).
    exists raw', v'. rewrite dict_get_set_ne in Hr by done. done.
Qed.

Lemma deserialize_missing cf row k :
k ∈ dict_keys cf → k ∉ dict_keys row →
∃ e, deserialize_complex_features cf row = Raise e.
Proof.
revert row. unfold dict_keys at 1.
induction cf as [|[k0 s0] cf IH]; intros row Hin Hrow; [by inversion Hin|].
cbn [deserialize_complex_features].
destruct (dict_get k0 row) as [raw|] eqn:Hraw; [|by eexists].
destruct (schema_read s0 raw) as [v|e]; [|by eexists]. cbn.
apply elem_of_cons in Hin as [->|Hin].
- destruct Hrow. by eapply dict_get_Some_keys.
- apply IH; [done|]. rewrite dict_keys_set_present; [done|by rewrite Hraw].
Qed.

Lemma dict_of_items_keys_from {K V} `{EqDecision K}
  (items : list (K * V)) (d : dict K V) k :
k ∈ dict_keys (foldl (λ d kv, dict_set kv.1 kv.2 d) d items) ↔
k ∈ dict_keys d ∨ k ∈ items.*1.
Proof.
revert d. induction items as [|[k0 v0] items IH]; intros d.
- cbn. rewrite elem_of_nil. tauto.
- cbn [foldl]. rewrite IH, dict_keys_set. cbn. rewrite elem_of_cons. tauto.
Qed.

Lemma dict_of_items_keys {K V} `{EqDecision K} (items : list (K * V)) k :
k ∈ dict_keys (dict_of_items items) ↔ k ∈ items.*1.
Proof.
unfold dict_of_items. rewrite dict_of_items_keys_from.
unfold dict_keys. cbn. rewrite elem_of_nil. tauto.
Qed.

Lemma dict_of_items_wf {K V} `{EqDecision K} (items : list (K * V)) :
dict_wf (dict_of_items items).
Proof.
unfold dict_of_items.
assert (∀ d : dict K V, dict_wf d →
        dict_wf (foldl (λ d kv, dict_set kv.1 kv.2 d) d items)) as Hgen.
{ induction items as [|[k0 v0] items IH]; intros d Hd; [done|].
cbn [foldl]. apply IH. by apply dict_set_wf. }
apply Hgen, NoDup_nil_2.
Qed.

(** X13.  A row that lacks the column of a complex feature is never
  decoded: [process_row] raises ([KeyError] on the missing column, or
  the error of an earlier reader). *)
Theorem missing_complex_column_raises cf fns (row : Row) k :
k ∈ dict_keys cf → k ∉ row.*1 →
∃ e, process_row cf fns row = Raise e.
Proof.
intros Hin Hrow. unfold process_row.
destruct (deserialize_missing cf (dict_of_items row) k) as [e ->]; [done| |].
- by rewrite dict_of_items_keys.
- by exists e.
Qed.

(** X14.  The complex features of a dataset are the features of its
  schema whose type is complex, by name; the mapping has one reader
  per name, and is empty when no feature is complex. *)
Theorem complex_schema_names (td : TrainingDataset) :
dict_wf (get_complex_feature_schemas td) ∧
(∀ k, k ∈ dict_keys (get_complex_feature_schemas td) ↔
      ∃ f, f ∈ schema td ∧ name f = k ∧ is_complex f = true) ∧
(Forall (λ f, is_complex f = false) (schema td) →
 get_complex_feature_schemas td = []).
Proof.
unfold get_complex_feature_schemas. split; [apply dict_of_items_wf|]. split.
- intros k. rewrite dict_of_items_keys, <-list_fmap_compose.
rewrite list_elem_of_fmap. split.
+ intros (f & -> & Hf). apply list_elem_of_In, filter_In in Hf as [Hf Hc].
  exists f. by rewrite list_elem_of_In.
+ intros (f & Hf & <- & Hc). exists f. split; [done|].
  apply list_elem_of_In, filter_In. by rewrite <-list_elem_of_In.
- intros Hnone. assert (List.filter is_complex (schema td) = []) as ->; [|done].
induction Hnone as [|f l Hf _ IH]; [done|]. cbn. by rewrite Hf.
Qed.
End Decoder.

(** ** Transformations in any order *)

Section TransformationOrder.

Lemma dict_ext {K V} `{EqDecision K} (d d' : dict K V) :
dict_wf d → dict_keys d = dict_keys d' →
(∀ k, dict_get k d = dict_get k d') → d = d'.
Proof.
unfold dict_wf, dict_keys. revert d'.
induction d as [|[k v] d IH]; intros [|[k' v'] d']; try done.
cbn. intros Hnd [= <- Hkeys] Hget.
apply NoDup_cons in Hnd as [Hfresh Hnd].
pose proof (Hget k) as Hk. cbn in Hk. rewrite !decide_True in Hk by done.
injection Hk as <-. f_equal. apply IH; [done..|].
intros k0. specialize (Hget k0). cbn in Hget.
destruct (decide (k0 = k)) as [->|Hne]; [|done].
rewrite (dict_get_None d), (dict_get_None d'); [done| |done].
unfold dict_keys. by rewrite <-Hkeys.
Qed.

Lemma dict_get_elem_of {K V} `{EqDecision K} (d : dict K V) k v :
dict_wf d → dict_get k d = Some v ↔ (k, v) ∈ d.
Proof.
unfold dict_wf, dict_keys. induction d as [|[k0 v0] d IH]; cbn.
- intros _. rewrite elem_of_nil. split; [done|tauto].
- intros Hnd. apply NoDup_cons in Hnd as [Hfresh Hnd].
rewrite elem_of_cons. destruct (decide (k = k0)) as [->|Hne].
+ split; [intros [= ->]; by left|].
  intros [[= ->]|Hin]; [done|].
  destruct Hfresh. by apply (list_elem_of_fmap_2 fst _ (k0, v)).
+ rewrite IH by done. split; [tauto|]. intros [[= -> ->]|?]; done.
Qed.

Lemma dict_get_perm {K V} `{EqDecision K} (d d' : dict K V) k :
d ≡ₚ d' → dict_wf d → dict_get k d = dict_get k d'.
Proof.
intros Hperm Hwf.
assert (dict_wf d') as Hwf' by (unfold dict_wf, dict_keys in *; by rewrite <-Hperm).
destruct (dict_get k d) as [v|] eqn:Hd.
- symmetry. apply dict_get_elem_of; [done|]. rewrite <-Hperm.
by apply dict_get_elem_of.
- destruct (dict_get k d') as [v|] eqn:Hd'; [|done].
apply dict_get_elem_of in Hd'; [|done]. rewrite <-Hperm in Hd'.
apply dict_get_elem_of in Hd'; [|done]. congruence.
Qed.

(** X15.  The order in which the transformation functions are listed
  does not matter: two mappings with the same entries in different
  orders transform a row into the same row. *)
Theorem transformation_order_irrelevant
  (fns fns' : dict string TransformationFunction) (row : dict string pyval) :
fns ≡ₚ fns' → dict_wf fns → dict_wf row →
_apply_transformation fns row = _apply_transformation fns' row.
Proof.
intros Hperm Hwf Hrow.
assert (dict_wf fns') as Hwf'
by (unfold dict_wf, dict_keys in *; by rewrite <-Hperm).
apply dict_ext.
- unfold dict_wf. by rewrite apply_transformation_keys.
- by rewrite !apply_transformation_keys.
- intros k. rewrite !apply_transformation_get by done.
by rewrite (dict_get_perm fns fns').
Qed.
End TransformationOrder.

(** ** Templates and names that do not match in number *)

Section Mismatch.

Lemma named_query_surplus q pk_names extra :
(count_char qmark q <= length pk_names)%nat →
named_query q (pk_names ++ extra) = named_query q pk_names.
Proof.
revert pk_names. induction q as [|c q IH]; intros ns Hcount; [done|].
cbn in Hcount |- *. destruct (Ascii.eqb c qmark).
- destruct ns as [|n ns]; [cbn in Hcount; lia|].
cbn [app]. rewrite IH; [done|]. cbn in Hcount. lia.
- by rewrite IH.
Qed.

(** X16.  The rewrite raises nothing when the numbers differ.  With
  fewer names than positional placeholders the first ones are
  replaced and the others stay; names beyond the last placeholder
  leave the text as it is. *)
Theorem rewrite_count_mismatch template pk_names :
Forall (λ n, name_ok n = true) pk_names →
count_char qmark (rewrite_query template pk_names)
  = (count_char qmark template - length pk_names)%nat ∧
∀ extra,
  (count_char qmark template <= length pk_names)%nat →
  Forall (λ n, name_ok n = true) extra →
  rewrite_query template (pk_names ++ extra) = rewrite_query template pk_names.
Proof.
intros Hnames. unfold rewrite_query. split.
- rewrite rewrite_loop_query by (done || apply replace_newlines_clean).
by rewrite named_query_qmarks, replace_newlines_qmarks.
- intros extra Hcount Hextra.
rewrite !rewrite_loop_query
  by (done || apply replace_newlines_clean || by apply Forall_app).
apply named_query_surplus. by rewrite replace_newlines_qmarks.
Qed.
End Mismatch.

(** ** Saving and inserting *)

Module SavingFacts.
Import Saving.

Section SaveFacts.
Context {KD : Kinds} {CB : Collaborators}.

(** X17.  Marking the labels keeps the features and their order; a
  feature ends as a label exactly when it was one or its name is among
  the label names (compared as written); a label name that no feature
  bears changes nothing. *)
Theorem mark_labels_marks_named labels (features : list Feature) :
mark_labels labels features = map (marked labels) features.
Proof.
unfold mark_labels. revert features.
induction labels as [|l labels IH]; intros features.
- cbn. induction features as [|f features IHf]; [done|].
cbn. rewrite <-IHf. unfold marked.
by rewrite bool_decide_eq_false_2 by apply not_elem_of_nil.
- cbn [foldl]. rewrite IH. unfold mark_label. rewrite <-list_fmap_compose.
apply list_fmap_ext. intros _ f _. cbn. unfold marked.
destruct (decide (name f = l)) as [<-|Hne]; cbn.
+ rewrite (bool_decide_eq_true_2 (name f ∈ name f :: labels))
    by (apply elem_of_cons; by left).
  by destruct (bool_decide (name f ∈ labels)).
+ destruct (bool_decide (name f ∈ labels)) eqn:Hin.
  * apply bool_decide_eq_true in Hin.
    by rewrite bool_decide_eq_true_2 by (apply elem_of_cons; by right).
  * apply bool_decide_eq_false in Hin.
    rewrite bool_decide_eq_false_2; [done|].
    rewrite elem_of_cons. intros [?|?]; done.
Qed.

(** X18.  With the Python engine nothing but a query can be saved or
  inserted: [save] of anything else raises before the dataset is
  posted, [insert] of anything else raises before a job is started. *)
Theorem python_engine_needs_query (td : Dataset) d options overwrite :
save (EI := python_engine) td (NotQuery d) options
  = ([], Thrown (match convert_dataframe d with
                 | Thrown e => e
                 | Done _ => NotImplementedError
                 end)) ∧
insert (EI := python_engine) td (NotQuery d) options overwrite
  = ([], Thrown OnlyQuerySupported).
Proof.
split; [|done]. unfold save, prepare. cbn.
by destruct (convert_dataframe d).
Qed.

(** X19.  Whatever the engine, a dataset that has transformation
  functions is not saved from a dataframe: [save] raises and the
  dataset is not posted. *)
Theorem transformations_need_query {EI : EngineInstance}
  (td : Dataset) d options :
td_transformation_functions td ≠ [] →
(save td (NotQuery d) options).1 = [] ∧
∃ e, (save td (NotQuery d) options).2 = Thrown e.
Proof.
intros Hfns. unfold save, prepare.
destruct (convert_to_default_dataframe d) as [d'|e]; [|by eauto].
destruct (parse_schema_training_dataset d') as [parsed|e]; [|by eauto].
cbn. destruct (td_transformation_functions td); [done|]. by eauto.
Qed.

End SaveFacts.
End SavingFacts.

(** ** The shape check of batch mode, and the rows that are kept *)

Section ShapeAndRows.
Context {PF : Platform} {SV : Services}.

Lemma mapM_py_len_inv (values : list pyval) lens :
mapM py_len values = Ok lens → Forall2 (λ x n, py_len x = Ok n) values lens.
Proof.
revert lens. induction values as [|x values IH]; intros lens.
- intros [= <-]. constructor.
- cbn [mapM]. destruct (py_len x) as [n|e] eqn:Hx; [|done]. cbn.
destruct (mapM py_len values) as [ns|e]; [|done]. cbn.
intros [= <-]. constructor; [done|]. by apply IH.
Qed.

Lemma py_len_has_iter v n : py_len v = Ok n → has_iter v = true.
Proof. by destruct v. Qed.

(** X20.  In batch mode the shape check passes exactly for the entries
  that are not empty and whose values all have one common length; the
  batch size the dataset was initialised with plays no part. *)
Theorem batch_shape_check (td : TrainingDataset) (entry : dict string pyval) :
batch_mode td = true →
check_mode td entry = Ok true ↔
dict_values entry ≠ [] ∧
∃ m, Forall (λ x, py_len x = Ok m) (dict_values entry).
Proof.
intros Hmode. split.
- unfold check_mode, first_value. rewrite Hmode.
destruct (dict_values entry) as [|v values] eqn:Hvalues; [done|].
cbn [mbind Res_bind].
destruct (negb (has_iter v) && negb (is_list v)); [done|].
destruct (mapM py_len (v :: values)) as [lens|e] eqn:Hlens; [|done].
cbn [mbind Res_bind].
destruct (bool_decide
            (length (elements (list_to_set lens : gset nat)) = 1%nat))
  eqn:Hone; [|done].
intros _. split; [done|]. apply bool_decide_eq_true in Hone.
change (size (list_to_set lens : gset nat) = 1%nat) in Hone.
apply size_1_elem_of in Hone as [m Hm]. exists m.
apply mapM_py_len_inv in Hlens.
assert (Forall (λ n, n = m) lens) as Hsame.
{ apply Forall_forall. intros n Hn.
  assert (n ∈ (list_to_set lens : gset nat)) as Hin
    by by apply elem_of_list_to_set.
  rewrite Hm in Hin. by apply elem_of_singleton in Hin. }
clear Hm Hvalues. induction Hlens as [|x n xs ns Hx _ IH]; [constructor|].
apply Forall_cons in Hsame as [-> Hsame]. constructor; [done|by apply IH].
- intros [Hne [m Hall]].
destruct (dict_values entry) as [|v values] eqn:Hvalues; [done|].
apply (check_mode_common_length td entry v m); try done.
+ unfold first_value. by rewrite Hvalues.
+ apply Forall_cons in Hall as [Hv _]. by apply (py_len_has_iter v m).
+ by rewrite Hvalues.
Qed.

(** X21.  A row that [process_row] returns has at least one column, its
  column names are pairwise distinct, and they are the column names of
  the fetched row: a name that occurs twice in the fetched row counts
  once, and decoding and transformations neither add nor remove a
  column. *)
Theorem processed_row_columns cf fns (row : Row) d :
process_row cf fns row = Ok d →
d ≠ [] ∧ dict_wf d ∧ ∀ k, k ∈ dict_keys d ↔ k ∈ row.*1.
Proof.
unfold process_row.
destruct (deserialize_complex_features cf (dict_of_items row))
as [decoded|e] eqn:Hdec; [|done].
cbn [mbind Res_bind].
pose proof (deserialize_keys _ _ _ Hdec) as Hkeys.
pose proof (apply_transformation_keys fns decoded) as Htr.
destruct decoded as [|kv rest] eqn:Hdecoded; [done|].
rewrite <-Hdecoded in *. intros [= <-].
assert (dict_keys (_apply_transformation fns decoded)
      = dict_keys (dict_of_items row)) as Hall by by rewrite Htr.
split; [|split].
- intros Hnil. rewrite Hnil, Hdecoded in Htr. done.
- unfold dict_wf. rewrite Hall. apply dict_of_items_wf.
- intros k. rewrite Hall. apply dict_of_items_keys.
Qed.
End ShapeAndRows.

(** ** The further properties on the samples *)

Module MoreFacts.
Import Sample MoreSamples.

Lemma pk_names_ignore_listing_order_witness :
pk_names_of ps2 = pk_names_of ps2_sorted ∧
StronglySorted index_le (sorted_by_index (prepared_statement_parameters ps2)).
Proof.
apply (pk_names_ignore_listing_order ps2 ps2_sorted).
- apply Permutation_swap.
- apply (bool_decide_unpack _). vm_compute. exact I.
Defined.

Lemma init_small_batch_is_single_witness :
init_prepared_statement (SV := services [ps0; ps1]) fresh (Some 1) false
= init_prepared_statement (SV := services [ps0; ps1]) fresh None false.
Proof.
apply (init_small_batch_is_single (SV := services [ps0; ps1]) fresh 1 false).
reflexivity.
Defined.

Lemma init_serving_keys_witness :
serving_keys (initialised [ps0; ps2] None)
= Some (parameter_names [ps0; ps2]).
Proof.
apply (init_serving_keys (SV := services [ps0; ps2]) fresh None false
       (initialised [ps0; ps2] None) [ps0; ps2]).
- vm_compute. reflexivity.
- reflexivity.
Defined.

Lemma init_cache_indices_witness :
∃ cache : dict Z Stmt,
  prepared_statements (initialised [ps0; ps1; ps3] (Some 3)) = Some cache ∧
  dict_wf cache ∧
  ∀ i, i ∈ dict_keys cache ↔
       i ∈ map prepared_statement_index [ps0; ps1; ps3].
Proof.
apply (init_cache_indices (SV := services [ps0; ps1; ps3]) fresh (Some 3) false
       (initialised [ps0; ps1; ps3] (Some 3)) [ps0; ps1; ps3]).
- vm_compute. reflexivity.
- reflexivity.
Defined.

Lemma lazy_init_is_init_witness :
get_serving_vector (SV := services [ps0; ps1]) fresh
  (entry_of (PList [PInt 1; PInt 2])) false
= get_serving_vector (SV := services [ps0; ps1]) (initialised [ps0; ps1] (Some 2))
    (entry_of (PList [PInt 1; PInt 2])) false.
Proof.
apply (lazy_init_is_init (SV := services [ps0; ps1]) fresh
       (entry_of (PList [PInt 1; PInt 2])) false (PList [PInt 1; PInt 2]));
reflexivity.
Defined.

Lemma scalar_among_batch_values_witness :
get_serving_vector (SV := services [ps2]) (initialised [ps2] (Some 2))
  [("id"%string, PList [PInt 1; PInt 2]); ("ts"%string, PInt 7)] false
= (initialised [ps2] (Some 2), [], Raise TypeError).
Proof.
apply (scalar_among_batch_values (SV := services [ps2])
       (initialised [ps2] (Some 2))
       [("id"%string, PList [PInt 1; PInt 2]); ("ts"%string, PInt 7)] false
       [(0, (s2.1, ["id"; "ts"]%string))] (PList [PInt 1; PInt 2]) (PInt 7)).
- reflexivity.
- reflexivity.
- reflexivity.
- reflexivity.
- apply elem_of_cons. right. apply elem_of_cons. by left.
- reflexivity.
Defined.

Lemma statements_sent_in_cache_order_witness :
(get_serving_vector (SV := services [ps0; ps3; ps1])
   (initialised [ps0; ps3; ps1] None) (entry_of (PInt 1)) false).1.1
= initialised [ps0; ps3; ps1] None ∧
(get_serving_vector (SV := services [ps0; ps3; ps1])
   (initialised [ps0; ps3; ps1] None) (entry_of (PInt 1)) false).1.2
`prefix_of` dict_keys [(0, s0); (2, s3); (1, s1)] ∧
(is_ok (get_serving_vector (SV := services [ps0; ps3; ps1])
          (initialised [ps0; ps3; ps1] None) (entry_of (PInt 1)) false).2
 = true →
 (get_serving_vector (SV := services [ps0; ps3; ps1])
    (initialised [ps0; ps3; ps1] None) (entry_of (PInt 1)) false).1.2
 = dict_keys [(0, s0); (2, s3); (1, s1)]).
Proof.
apply (statements_sent_in_cache_order (SV := services [ps0; ps3; ps1])
       (initialised [ps0; ps3; ps1] None) (entry_of (PInt 1)) false
       [(0, s0); (2, s3); (1, s1)]).
reflexivity.
Defined.

Lemma first_failure_aborts_witness :
get_serving_vector (SV := services [ps0; ps3; ps1])
  (initialised [ps0; ps3; ps1] None) (entry_of (PInt 1)) false
= (initialised [ps0; ps3; ps1] None, [0; 2],
   Raise (External "no such table")).
Proof.
apply (proj1 (first_failure_aborts (SV := services [ps0; ps3; ps1])
              (initialised [ps0; ps3; ps1] None) (entry_of (PInt 1)) false
              ("onlinefs"%string, false) [(0, s0)] 2 s3 [(1, s1)]
              (External "no such table") eq_refl eq_refl eq_refl)
           [[PInt 10; PInt 22]]).
- reflexivity.
- repeat constructor. eexists. split; reflexivity.
- reflexivity.
Defined.

Lemma batch_vectors_ragged_witness :
get_serving_vector (SV := services [ps0; ps1])
  (initialised [ps0; ps1] (Some 3))
  (entry_of (PList [PInt 1; PInt 4; PInt 3])) false
= (initialised [ps0; ps1] (Some 3), [0; 1],
   Ok (BatchVectors [[PInt 10; PInt 22; PInt 12; PInt 13];
                     [PInt 40; PInt 82; PInt 32; PInt 33];
                     [PInt 30; PInt 62]])).
Proof.
apply (batch_vectors_ragged (SV := services [ps0; ps1])
       (initialised [ps0; ps1] (Some 3))
       (entry_of (PList [PInt 1; PInt 4; PInt 3])) false
       ("onlinefs"%string, false)
       [(0, s0_batch); (1, s1_batch)]
       [[[PInt 10; PInt 22]; [PInt 40; PInt 82]; [PInt 30; PInt 62]];
        [[PInt 12; PInt 13]; [PInt 32; PInt 33]]]).
- reflexivity.
- reflexivity.
- vm_compute. reflexivity.
- vm_compute. reflexivity.
- repeat constructor; eexists; split; reflexivity.
Defined.

Lemma deserialize_frame_witness :
dict_keys decoded_row = dict_keys raw_row ∧
(∀ k, dict_get k blob_schema = None →
      dict_get k decoded_row = dict_get k raw_row) ∧
(∀ k s, dict_get k blob_schema = Some s →
   ∃ raw v, dict_get k raw_row = Some raw ∧
            schema_read (Services := decoding_services) s raw = Ok v ∧
            dict_get k decoded_row = Some v).
Proof.
apply (deserialize_frame (SV := decoding_services) blob_schema raw_row
       decoded_row).
- apply (bool_decide_unpack _). vm_compute. exact I.
- reflexivity.
Defined.

Lemma missing_complex_column_raises_witness :
∃ e, process_row (SV := decoding_services) blob_schema doubling
       [("a"%string, PInt 10); ("b"%string, PInt 11)] = Raise e.
Proof.
apply (missing_complex_column_raises (SV := decoding_services) blob_schema
       doubling [("a"%string, PInt 10); ("b"%string, PInt 11)] "blob"%string).
- apply elem_of_cons. by left.
- apply (bool_decide_unpack _). vm_compute. exact I.
Defined.

Lemma transformation_order_irrelevant_witness :
_apply_transformation doubling sample_row
= _apply_transformation doubling_reversed sample_row.
Proof.
apply (transformation_order_irrelevant doubling doubling_reversed sample_row).
- apply Permutation_swap.
- apply (bool_decide_unpack _). vm_compute. exact I.
- apply (bool_decide_unpack _). vm_compute. exact I.
Defined.

Lemma rewrite_count_mismatch_witness :
count_char qmark (rewrite_query q2 ["id"%string])
= (count_char qmark q2 - length ["id"%string])%nat ∧
∀ extra,
  (count_char qmark q2 <= length ["id"%string])%nat →
  Forall (λ n, name_ok n = true) extra →
  rewrite_query q2 (["id"%string] ++ extra) = rewrite_query q2 ["id"%string].
Proof.
apply (rewrite_count_mismatch q2 ["id"%string]).
repeat constructor.
Defined.

Example rewrite_leaves_placeholder :
rewrite_query q2 ["id"%string]
= "SELECT a, b FROM fg0 WHERE id = :id AND ts = ?"%string.
Proof. reflexivity. Qed.

Lemma transformations_need_query_witness :
(Saving.save (CB := collaborators) (EI := parsing_engine) draft
   (Saving.NotQuery 7) ()).1 = [] ∧
∃ e, (Saving.save (CB := collaborators) (EI := parsing_engine) draft
        (Saving.NotQuery 7) ()).2 = Saving.Thrown e.
Proof.
apply (SavingFacts.transformations_need_query (CB := collaborators) (EI := parsing_engine)
       draft 7 ()).
discriminate.
Defined.

Lemma batch_shape_check_witness :
check_mode (initialised [ps0; ps1] (Some 3))
  (entry_of (PList [PInt 1; PInt 2])) = Ok true ↔
dict_values (entry_of (PList [PInt 1; PInt 2])) ≠ [] ∧
∃ m, Forall (λ x, py_len x = Ok m)
       (dict_values (entry_of (PList [PInt 1; PInt 2]))).
Proof.
apply (batch_shape_check
       (initialised [ps0; ps1] (Some 3)) (entry_of (PList [PInt 1; PInt 2]))).
reflexivity.
Defined.

Lemma processed_row_columns_witness :
[("a"%string, PInt 3); ("b"%string, PInt 4)] ≠ [] ∧
dict_wf [("a"%string, PInt 3); ("b"%string, PInt 4)] ∧
∀ k, k ∈ dict_keys [("a"%string, PInt 3); ("b"%string, PInt 4)] ↔
     k ∈ [("a"%string, PInt 1); ("b"%string, PInt 2); ("a"%string, PInt 3)].*1.
Proof.
apply (processed_row_columns (SV := services []) [] doubling
       [("a"%string, PInt 1); ("b"%string, PInt 2); ("a"%string, PInt 3)]
       [("a"%string, PInt 3); ("b"%string, PInt 4)]).
reflexivity.
Defined.
End MoreFacts.
